(** * The engine controller of the worker API: the [/update-run] handler

    A shallow embedding of
    [packages/server/api/src/app/workers/engine-controller.ts]:
    [getFlowResponse], [markJobAsCompleted], [markParentRunAsFailed] and the
    [/update-run] route handler of [flowEngineWorker].

    The handler is a sequence of awaited calls to services that live in
    other files (the run store [flowRunService], the response waiter
    [engineResponseWatcher], the queue [flowConsumer], the socket [app.io],
    [domainHelper] and [apAxios]).  Those services are taken as parameters
    of the embedding: each one is a function of an abstract world that may
    return a value or reject.  The handler threads the world, stops at the
    first rejection as an [await] does, and records every call it makes,
    together with the call's outcome, in a trace. *)

From stdpp Require Import gmap strings list fin_maps pretty sorting.
From Stdlib Require Import ZArith Lia Ascii String.

Local Open Scope Z_scope.

(** ** JavaScript values *)

Module Js.

(** Values that reach the handler through a JSON body.  An object keeps
    its properties in insertion order; a number is an integer. *)
#[warnings="-register-all"]
Inductive Value : Type :=
| Undefined
| Null
| Bool (b : bool)
| Number (z : Z)
| Str (s : string)
| Array (items : list Value)
| Object (props : list (string * Value)).

(** A plain object used as a record of named fields. *)
Abbreviation Obj := (gmap string Value).

(** [isNil]: [null] or [undefined]. *)
Definition isNil (v : Value) : bool :=
  match v with
  | Undefined | Null => true
  | _ => false
  end.

Definition hex_digit (n : N) : ascii :=
  match n with
  | 0 => "0" | 1 => "1" | 2 => "2" | 3 => "3" | 4 => "4" | 5 => "5"
  | 6 => "6" | 7 => "7" | 8 => "8" | 9 => "9" | 10 => "a" | 11 => "b"
  | 12 => "c" | 13 => "d" | 14 => "e" | _ => "f"
  end%N%char.

(** The double quote, code unit 34. *)
Definition dquote : string := String (ascii_of_N 34) "".

(** The escape of one code unit inside a JSON string literal. *)
Definition escape_char (c : ascii) : string :=
  let n := N_of_ascii c in
  if (n =? 34)%N then "\" +:+ dquote
  else if (n =? 92)%N then "\\"
  else if (n =? 8)%N then "\b"
  else if (n =? 12)%N then "\f"
  else if (n =? 10)%N then "\n"
  else if (n =? 13)%N then "\r"
  else if (n =? 9)%N then "\t"
  else if (n <? 32)%N then
    "\u00" +:+ String (hex_digit (n / 16)) (String (hex_digit (n mod 16)) "")
  else String c "".

Fixpoint escape (s : string) : string :=
  match s with
  | EmptyString => ""
  | String c rest => escape_char c +:+ escape rest
  end.

Definition quote (s : string) : string := dquote +:+ escape s +:+ dquote.

Fixpoint join (sep : string) (l : list string) : string :=
  match l with
  | [] => ""
  | [x] => x
  | x :: rest => x +:+ sep +:+ join sep rest
  end.

(** [JSON.stringify]: [None] stands for the result [undefined]. *)
Fixpoint stringify (v : Value) : option string :=
  match v with
  | Undefined => None
  | Null => Some "null"
  | Bool true => Some "true"
  | Bool false => Some "false"
  | Number z => Some (pretty z)
  | Str s => Some (quote s)
  | Array items =>
      Some ("[" +:+ join "," (List.map (fun x => default "null" (stringify x)) items) +:+ "]")
  | Object props =>
      let member (p : string * Value) : list string :=
        match stringify (snd p) with
        | Some s => [quote (fst p) +:+ ":" +:+ s]
        | None => []
        end in
      Some ("{" +:+ join "," (List.concat (List.map member props)) +:+ "}")
  end.

(** [ToString], as a template literal applies it to a value. *)
Fixpoint to_string (v : Value) : string :=
  match v with
  | Undefined => "undefined"
  | Null => "null"
  | Bool true => "true"
  | Bool false => "false"
  | Number z => pretty z
  | Str s => s
  | Array items =>
      join "," (List.map (fun x => if isNil x then "" else to_string x) items)
  | Object _ => "[object Object]"
  end.

(** A template literal applied to a result of [stringify]. *)
Definition template (o : option string) : string := default "undefined" o.

End Js.


(** ** Enumerations and constants of the shared packages *)

(** [StatusCodes] of the package http-status-codes. *)
Module StatusCodes.
Definition NO_CONTENT : Z := 204.
Definition INTERNAL_SERVER_ERROR : Z := 500.
Definition GATEWAY_TIMEOUT : Z := 504.
End StatusCodes.

(** Modelled from the spec: the enumeration [FlowRunStatus] of
    [@activepieces/shared], with the nine values that the data model lists
    and that the switch of [markJobAsCompleted] enumerates. *)
Module FlowRunStatus.
Inductive t : Set :=
| FAILED | QUOTA_EXCEEDED | INTERNAL_ERROR | PAUSED | QUEUED
| RUNNING | SUCCEEDED | MEMORY_LIMIT_EXCEEDED | TIMEOUT.

Definition eqb (a b : t) : bool :=
  match a, b with
  | FAILED, FAILED | QUOTA_EXCEEDED, QUOTA_EXCEEDED
  | INTERNAL_ERROR, INTERNAL_ERROR | PAUSED, PAUSED | QUEUED, QUEUED
  | RUNNING, RUNNING | SUCCEEDED, SUCCEEDED
  | MEMORY_LIMIT_EXCEEDED, MEMORY_LIMIT_EXCEEDED | TIMEOUT, TIMEOUT => true
  | _, _ => false
  end.

(** The string a member stands for, as a template literal prints it. *)
Definition to_string (s : t) : string :=
  match s with
  | FAILED => "FAILED"
  | QUOTA_EXCEEDED => "QUOTA_EXCEEDED"
  | INTERNAL_ERROR => "INTERNAL_ERROR"
  | PAUSED => "PAUSED"
  | QUEUED => "QUEUED"
  | RUNNING => "RUNNING"
  | SUCCEEDED => "SUCCEEDED"
  | MEMORY_LIMIT_EXCEEDED => "MEMORY_LIMIT_EXCEEDED"
  | TIMEOUT => "TIMEOUT"
  end.

(** [Array.prototype.includes] on an array of statuses. *)
Definition includes (l : list t) (s : t) : bool := existsb (eqb s) l.
End FlowRunStatus.

(** Modelled from the spec: [JobStatus] and [QueueName] of
    [@activepieces/server-shared]; the queue update contract has the two
    outcomes COMPLETED and FAILED. *)
Module JobStatus.
Inductive t : Set := COMPLETED | FAILED.
End JobStatus.

(** Of [QueueName] the file names one member. *)
Module QueueName.
Inductive t : Set := ONE_TIME.
End QueueName.

(** Modelled from the spec: [ProgressUpdateType] of [@activepieces/shared];
    it defaults to NONE when a report has none. *)
Module ProgressUpdateType.
Inductive t : Set := WEBHOOK_RESPONSE | TEST_FLOW | NONE.

Definition to_value (p : t) : Js.Value :=
  Js.Str match p with
         | WEBHOOK_RESPONSE => "WEBHOOK_RESPONSE"
         | TEST_FLOW => "TEST_FLOW"
         | NONE => "NONE"
         end.
End ProgressUpdateType.

(** Modelled from the spec: [PauseType] of [@activepieces/shared]; a paused
    run waits for a delay or for a webhook. *)
Module PauseType.
Inductive t : Set := DELAY | WEBHOOK.

Definition to_string (p : t) : string :=
  match p with
  | DELAY => "DELAY"
  | WEBHOOK => "WEBHOOK"
  end.
End PauseType.

Module WebsocketClientEvent.
Inductive t : Set := FLOW_RUN_PROGRESS.
End WebsocketClientEvent.

(** [strict_eq_string v s]: the comparison [v === s] of a value with a
    string constant. *)
Definition strict_eq_string (v : Js.Value) (s : string) : bool :=
  match v with
  | Js.Str s' => String.eqb s' s
  | _ => false
  end.

(** [isNil] on a field that may be absent. *)
Definition isNil {A} (o : option A) : bool :=
  match o with
  | Some _ => false
  | None => true
  end.

(** ** Records *)

(** [EngineHttpResponse]. *)
Record EngineHttpResponse : Type := {
  resp_status : Z;
  resp_body : Js.Obj;
  resp_headers : gmap string string;
}.

(** [FlowRunResponse], the [runDetails] of a report: the fields that the
    handler reads. *)
Record FlowRunResponse : Type := {
  rd_status : FlowRunStatus.t;
  rd_tasks : Z;
  rd_duration : Z;
  rd_tags : option (list string);
  rd_pauseMetadata : option Js.Obj;
  rd_error : Js.Value;
}.

(** [UpdateRunProgressRequest], the body of [/update-run]. *)
Record UpdateRunProgressRequest : Type := {
  runId : string;
  workerHandlerId : option string;
  runDetails : FlowRunResponse;
  httpRequestId : option string;
  executionStateBuffer : option string;
  executionStateContentLength : option Z;
  failedStepName : option string;
  progressUpdateType : option ProgressUpdateType.t;
}.

(** [UpdateRunProgressResponse]. *)
Record UpdateRunProgressResponse : Type := {
  uploadUrl : option string;
}.

(** [EnginePrincipal], the authenticated engine behind a request. *)
Record EnginePrincipal : Type := {
  principal_id : string;
  principal_projectId : string;
  principal_platform_id : string;
  queueToken : option string;
}.

(** A flow run as the run store returns it (without its steps). *)
Record FlowRun : Type := {
  run_id : string;
  run_projectId : string;
  run_status : FlowRunStatus.t;
  run_logsFileId : option string;
  run_failParentOnFailure : bool;
  run_parentRunId : option string;
  run_pauseMetadata : option Js.Obj;
}.

(** The argument of [flowRunService.updateRun]. *)
Record UpdateRunParams : Type := {
  ur_flowRunId : string;
  ur_status : FlowRunStatus.t;
  ur_tasks : Z;
  ur_duration : Z;
  ur_projectId : string;
  ur_tags : list string;
  ur_failedStepName : option string;
}.

(** The argument of [flowRunService.updateLogsAndReturnUploadUrl]. *)
Record UpdateLogsParams : Type := {
  ul_flowRunId : string;
  ul_logsFileId : option string;
  ul_projectId : string;
  ul_executionStateString : option string;
  ul_executionStateContentLength : option Z;
}.

(** The argument of [flowConsumer.update]. *)
Record UpdateJobParams : Type := {
  uj_jobId : string;
  uj_queueName : QueueName.t;
  uj_status : JobStatus.t;
  uj_token : option string;
  uj_message : string;
}.

(** The body that [markParentRunAsFailed] posts. *)
Record CallbackData : Type := {
  cb_message : string;
  cb_link : string;
}.

Record CallbackBody : Type := {
  cb_status : string;
  cb_data : CallbackData;
}.

(** [MarkParentRunAsFailedParams] (the logger apart). *)
Record MarkParentRunAsFailedParams : Type := {
  mp_parentRunId : string;
  mp_childRunId : string;
  mp_projectId : string;
  mp_platformId : string;
}.

(** ** Outcomes of awaited calls *)

(** What an awaited call throws: an [Error] built in this file, the
    failure of [assertNotNullOrUndefined], or the rejection of a call to a
    service. *)
Inductive Thrown : Type :=
| Error (message : string)
| NullOrUndefined (fieldName : string)
| Rejected (reason : string).

Inductive Result (A : Type) : Type :=
| Ok (a : A)
| Err (e : Thrown).
Arguments Ok {A} a.
Arguments Err {A} e.

Definition is_Ok {A} (r : Result A) : bool :=
  match r with
  | Ok _ => true
  | Err _ => false
  end.

(** Every call the handler makes, in the order it makes it, with the
    outcome of the call.  [Cascade] records the entry into
    [markParentRunAsFailed] with its arguments; the other events are calls
    to services. *)
Inductive Event : Type :=
| Cascade (params : MarkParentRunAsFailedParams)
| Publish (requestId handlerId : string) (response : EngineHttpResponse)
    (out : Result unit)
| UpdateRun (p : UpdateRunParams) (out : Result FlowRun)
| UpdateLogs (p : UpdateLogsParams) (out : Result (option string))
| Emit (room : string) (event : WebsocketClientEvent.t) (data : string)
| Pause (flowRunId : string) (pauseMetadata : Js.Obj) (out : Result unit)
| UpdateJob (p : UpdateJobParams) (out : Result unit)
| GetOne (id projectId : string) (out : Result FlowRun)
| GetPublicApiUrl (path platformId : string) (out : Result string)
| GetPublicUrl (path platformId : string) (out : Result string)
| Post (url : string) (body : CallbackBody) (out : Result unit).

(** ** The handler *)

Section Controller.

(** The state of everything outside the handler: run store, waiters,
    queue, network. *)
Variable World : Type.

(** A call to a service: from a world to an outcome and a new world. *)
Definition Call (A : Type) : Type := World -> Result A * World.

(** The services the file imports. *)
Record Services : Type := {
  engineResponseWatcher_publish :
    string -> string -> EngineHttpResponse -> Call unit;
  flowRunService_updateRun : UpdateRunParams -> Call FlowRun;
  flowRunService_updateLogsAndReturnUploadUrl :
    UpdateLogsParams -> Call (option string);
  flowRunService_pause : string -> Js.Obj -> Call unit;
  flowRunService_getOneOrThrow : string -> string -> Call FlowRun;
  flowConsumer_update : UpdateJobParams -> Call unit;
  domainHelper_getPublicApiUrl : string -> string -> Call string;
  domainHelper_getPublicUrl : string -> string -> Call string;
  apAxios_post : string -> CallbackBody -> Call unit;
}.

(** An asynchronous computation: it ends with a value or a thrown error,
    in a new world, having made the calls of its trace. *)
Definition Async (A : Type) : Type := World -> Result A * World * list Event.

Definition ret {A} (a : A) : Async A := fun w => (Ok a, w, []).

Definition bind {A B} (m : Async A) (k : A -> Async B) : Async B :=
  fun w =>
    match m w with
    | (Ok a, w1, t1) =>
        match k a w1 with
        | (r, w2, t2) => (r, w2, t1 ++ t2)
        end
    | (Err e, w1, t1) => (Err e, w1, t1)
    end.

(** [await] of a service call, recorded with its outcome. *)
Definition await {A} (c : Call A) (ev : Result A -> Event) : Async A :=
  fun w =>
    match c w with
    | (r, w1) => (r, w1, [ev r])
    end.

(** A call that returns nothing and is not awaited on. *)
Definition tell (e : Event) : Async unit := fun w => (Ok tt, w, [e]).

(** [await] of an async function of this file that touches no service. *)
Definition lift {A} (r : Result A) : Async A := fun w => (r, w, []).

Notation "x <- m ;; k" := (bind m (fun x => k))
  (at level 100, m at next level, right associativity).
Notation "m ;;; k" := (bind m (fun _ => k))
  (at level 100, right associativity).

Definition outcome {A} (x : Result A * World * list Event) : Result A :=
  fst (fst x).
Definition world_of {A} (x : Result A * World * list Event) : World :=
  snd (fst x).
Definition trace {A} (x : Result A * World * list Event) : list Event :=
  snd x.

Variable svc : Services.

(** [getFlowResponse]. *)
Definition getFlowResponse (result : FlowRunResponse)
  : Result EngineHttpResponse :=
  match rd_status result with
  | FlowRunStatus.INTERNAL_ERROR =>
      Ok {| resp_status := StatusCodes.INTERNAL_SERVER_ERROR;
            resp_body := {[ "message" := Js.Str "An internal error has occurred" ]};
            resp_headers := ∅ |}
  | FlowRunStatus.FAILED
  | FlowRunStatus.MEMORY_LIMIT_EXCEEDED =>
      Ok {| resp_status := StatusCodes.INTERNAL_SERVER_ERROR;
            resp_body := {[ "message" :=
              Js.Str "The flow has failed and there is no response returned" ]};
            resp_headers := ∅ |}
  | FlowRunStatus.TIMEOUT =>
      Ok {| resp_status := StatusCodes.GATEWAY_TIMEOUT;
            resp_body := {[ "message" := Js.Str "The request took too long to reply" ]};
            resp_headers := ∅ |}
  | FlowRunStatus.QUOTA_EXCEEDED =>
      Ok {| resp_status := StatusCodes.NO_CONTENT;
            resp_body := ∅;
            resp_headers := ∅ |}
  | other =>
      Err (Error ("Unexpected flow run status: " +:+ FlowRunStatus.to_string other))
  end.

(** [markJobAsCompleted]. *)
Definition markJobAsCompleted (status : FlowRunStatus.t) (jobId : string)
    (enginePrincipal : EnginePrincipal) (error : Js.Value) : Async unit :=
  match status with
  | FlowRunStatus.FAILED
  | FlowRunStatus.TIMEOUT
  | FlowRunStatus.PAUSED
  | FlowRunStatus.QUOTA_EXCEEDED
  | FlowRunStatus.MEMORY_LIMIT_EXCEEDED
  | FlowRunStatus.SUCCEEDED =>
      let p := {| uj_jobId := jobId; uj_queueName := QueueName.ONE_TIME;
                  uj_status := JobStatus.COMPLETED;
                  uj_token := queueToken enginePrincipal;
                  uj_message := "Flow succeeded" |} in
      await (flowConsumer_update svc p) (UpdateJob p)
  | FlowRunStatus.QUEUED
  | FlowRunStatus.RUNNING => ret tt
  | FlowRunStatus.INTERNAL_ERROR =>
      let p := {| uj_jobId := jobId; uj_queueName := QueueName.ONE_TIME;
                  uj_status := JobStatus.FAILED;
                  uj_token := queueToken enginePrincipal;
                  uj_message := "Internal error reported by engine: "
                                +:+ Js.template (Js.stringify error) |} in
      await (flowConsumer_update svc p) (UpdateJob p)
  end.

(** Modelled from the spec: [assertNotNullOrUndefined] of
    [@activepieces/shared], which is not in this file.  A request id that
    is absent is a fatal invariant violation: the assertion throws when the
    value is [null] or [undefined], and returns it otherwise. *)
Definition assertNotNullOrUndefined (value : Js.Value) (fieldName : string)
  : Result Js.Value :=
  if Js.isNil value then Err (NullOrUndefined fieldName) else Ok value.

(** [flowRun.pauseMetadata?.type === PauseType.WEBHOOK
      ? flowRun.pauseMetadata?.requestId : undefined]. *)
Definition webhook_requestId (flowRun : FlowRun) : Js.Value :=
  match run_pauseMetadata flowRun with
  | Some pm =>
      if strict_eq_string (default Js.Undefined (pm !! "type"))
           (PauseType.to_string PauseType.WEBHOOK)
      then default Js.Undefined (pm !! "requestId")
      else Js.Undefined
  | None => Js.Undefined
  end.

(** [markParentRunAsFailed]; its entry is recorded by [Cascade]. *)
Definition markParentRunAsFailed (params : MarkParentRunAsFailedParams)
  : Async unit :=
  let parentRunId := mp_parentRunId params in
  let childRunId := mp_childRunId params in
  let projectId := mp_projectId params in
  let platformId := mp_platformId params in
  tell (Cascade params) ;;;
  flowRun <- await (flowRunService_getOneOrThrow svc parentRunId projectId)
                   (GetOne parentRunId projectId) ;;
  requestId <- lift (assertNotNullOrUndefined (webhook_requestId flowRun)
                       "Parent run has no request id") ;;
  let apiPath := "/v1/flow-runs/" +:+ parentRunId +:+ "/requests/"
                 +:+ Js.to_string requestId in
  callbackUrl <- await (domainHelper_getPublicApiUrl svc apiPath platformId)
                       (GetPublicApiUrl apiPath platformId) ;;
  let runPath := "/projects/" +:+ projectId +:+ "/runs/" +:+ childRunId in
  childRunUrl <- await (domainHelper_getPublicUrl svc runPath platformId)
                       (GetPublicUrl runPath platformId) ;;
  let body := {| cb_status := "error";
                 cb_data := {| cb_message := "Subflow execution failed";
                               cb_link := childRunUrl |} |} in
  await (apAxios_post svc callbackUrl body) (Post callbackUrl body).

Definition nonSupportedStatuses : list FlowRunStatus.t :=
  [FlowRunStatus.RUNNING; FlowRunStatus.SUCCEEDED; FlowRunStatus.PAUSED].

(** The object literal
    [{ progressUpdateType, handlerId: workerHandlerId ?? undefined,
       ...(runDetails.pauseMetadata!) }]: the spread properties are
    written last and overwrite the two named ones. *)
Definition pause_metadata (progressUpdateType : ProgressUpdateType.t)
    (workerHandlerId : option string) (pauseMetadata : option Js.Obj)
  : Js.Obj :=
  default ∅ pauseMetadata
  ∪ {[ "progressUpdateType" := ProgressUpdateType.to_value progressUpdateType;
       "handlerId" := from_option Js.Str Js.Undefined workerHandlerId ]}.

Definition shouldMarkParentAsFailed (runWithoutSteps : FlowRun) : bool :=
  run_failParentOnFailure runWithoutSteps
  && negb (isNil (run_parentRunId runWithoutSteps))
  && negb (FlowRunStatus.includes
             [FlowRunStatus.SUCCEEDED; FlowRunStatus.RUNNING;
              FlowRunStatus.PAUSED; FlowRunStatus.QUEUED]
             (run_status runWithoutSteps)).

(** The handler of [POST /update-run]. *)
Definition update_run (principal : EnginePrincipal)
    (body : UpdateRunProgressRequest) : Async UpdateRunProgressResponse :=
  let progressUpdateType :=
    default ProgressUpdateType.NONE (progressUpdateType body) in
  let runDetails := runDetails body in
  (match negb (FlowRunStatus.includes nonSupportedStatuses (rd_status runDetails)),
         workerHandlerId body, httpRequestId body with
   | true, Some workerHandlerId, Some httpRequestId =>
       response <- lift (getFlowResponse runDetails) ;;
       await (engineResponseWatcher_publish svc httpRequestId workerHandlerId response)
             (Publish httpRequestId workerHandlerId response)
   | _, _, _ => ret tt
   end) ;;;
  let p := {| ur_flowRunId := runId body;
              ur_status := rd_status runDetails;
              ur_tasks := rd_tasks runDetails;
              ur_duration := rd_duration runDetails;
              ur_projectId := principal_projectId principal;
              ur_tags := default [] (rd_tags runDetails);
              ur_failedStepName := failedStepName body |} in
  runWithoutSteps <- await (flowRunService_updateRun svc p) (UpdateRun p) ;;
  let updateLogs :=
    match executionStateContentLength body with
    | Some n => 0 <? n
    | None => false
    end in
  uploadUrl <-
    (if updateLogs then
       let l := {| ul_flowRunId := runId body;
                   ul_logsFileId := run_logsFileId runWithoutSteps;
                   ul_projectId := principal_projectId principal;
                   ul_executionStateString := executionStateBuffer body;
                   ul_executionStateContentLength :=
                     executionStateContentLength body |} in
       await (flowRunService_updateLogsAndReturnUploadUrl svc l) (UpdateLogs l)
     else
       tell (Emit (principal_projectId principal)
               WebsocketClientEvent.FLOW_RUN_PROGRESS (runId body)) ;;;
       ret None) ;;
  (if FlowRunStatus.eqb (rd_status runDetails) FlowRunStatus.PAUSED then
     let pm := pause_metadata progressUpdateType (workerHandlerId body)
                 (rd_pauseMetadata runDetails) in
     await (flowRunService_pause svc (runId body) pm) (Pause (runId body) pm)
   else ret tt) ;;;
  markJobAsCompleted (run_status runWithoutSteps) (run_id runWithoutSteps)
    principal (rd_error runDetails) ;;;
  (match shouldMarkParentAsFailed runWithoutSteps,
         run_parentRunId runWithoutSteps with
   | true, Some parentRunId =>
       markParentRunAsFailed
         {| mp_parentRunId := parentRunId;
            mp_childRunId := run_id runWithoutSteps;
            mp_projectId := principal_projectId principal;
            mp_platformId := principal_platform_id principal |}
   | _, _ => ret tt
   end) ;;;
  ret {| uploadUrl := uploadUrl |}.

(** *** The handler, step by step

    The same handler cut at its awaited calls; [update_run_steps] below
    shows that the cut changes nothing. *)

Definition respond (body : UpdateRunProgressRequest) : Async unit :=
  match negb (FlowRunStatus.includes nonSupportedStatuses
                (rd_status (runDetails body))),
        workerHandlerId body, httpRequestId body with
  | true, Some workerHandlerId, Some httpRequestId =>
      response <- lift (getFlowResponse (runDetails body)) ;;
      await (engineResponseWatcher_publish svc httpRequestId workerHandlerId response)
            (Publish httpRequestId workerHandlerId response)
  | _, _, _ => ret tt
  end.

Definition update_run_params (principal : EnginePrincipal)
    (body : UpdateRunProgressRequest) : UpdateRunParams :=
  {| ur_flowRunId := runId body;
     ur_status := rd_status (runDetails body);
     ur_tasks := rd_tasks (runDetails body);
     ur_duration := rd_duration (runDetails body);
     ur_projectId := principal_projectId principal;
     ur_tags := default [] (rd_tags (runDetails body));
     ur_failedStepName := failedStepName body |}.

Definition persist (principal : EnginePrincipal)
    (body : UpdateRunProgressRequest) : Async FlowRun :=
  await (flowRunService_updateRun svc (update_run_params principal body))
        (UpdateRun (update_run_params principal body)).

Definition updateLogs (body : UpdateRunProgressRequest) : bool :=
  match executionStateContentLength body with
  | Some n => 0 <? n
  | None => false
  end.

Definition update_logs_params (principal : EnginePrincipal)
    (body : UpdateRunProgressRequest) (runWithoutSteps : FlowRun)
  : UpdateLogsParams :=
  {| ul_flowRunId := runId body;
     ul_logsFileId := run_logsFileId runWithoutSteps;
     ul_projectId := principal_projectId principal;
     ul_executionStateString := executionStateBuffer body;
     ul_executionStateContentLength := executionStateContentLength body |}.

Definition logs_or_broadcast (principal : EnginePrincipal)
    (body : UpdateRunProgressRequest) (runWithoutSteps : FlowRun)
  : Async (option string) :=
  if updateLogs body then
    await (flowRunService_updateLogsAndReturnUploadUrl svc
             (update_logs_params principal body runWithoutSteps))
          (UpdateLogs (update_logs_params principal body runWithoutSteps))
  else
    tell (Emit (principal_projectId principal)
            WebsocketClientEvent.FLOW_RUN_PROGRESS (runId body)) ;;;
    ret None.

Definition report_pause_metadata (body : UpdateRunProgressRequest) : Js.Obj :=
  pause_metadata (default ProgressUpdateType.NONE (progressUpdateType body))
    (workerHandlerId body) (rd_pauseMetadata (runDetails body)).

Definition pause_if_paused (body : UpdateRunProgressRequest) : Async unit :=
  if FlowRunStatus.eqb (rd_status (runDetails body)) FlowRunStatus.PAUSED then
    await (flowRunService_pause svc (runId body) (report_pause_metadata body))
          (Pause (runId body) (report_pause_metadata body))
  else ret tt.

Definition cascade_params (principal : EnginePrincipal)
    (runWithoutSteps : FlowRun) (parentRunId : string)
  : MarkParentRunAsFailedParams :=
  {| mp_parentRunId := parentRunId;
     mp_childRunId := run_id runWithoutSteps;
     mp_projectId := principal_projectId principal;
     mp_platformId := principal_platform_id principal |}.

Definition cascade_if_needed (principal : EnginePrincipal)
    (runWithoutSteps : FlowRun) : Async unit :=
  match shouldMarkParentAsFailed runWithoutSteps,
        run_parentRunId runWithoutSteps with
  | true, Some parentRunId =>
      markParentRunAsFailed (cascade_params principal runWithoutSteps parentRunId)
  | _, _ => ret tt
  end.

Definition update_run_by_steps (principal : EnginePrincipal)
    (body : UpdateRunProgressRequest) : Async UpdateRunProgressResponse :=
  respond body ;;;
  runWithoutSteps <- persist principal body ;;
  uploadUrl <- logs_or_broadcast principal body runWithoutSteps ;;
  pause_if_paused body ;;;
  markJobAsCompleted (run_status runWithoutSteps) (run_id runWithoutSteps)
    principal (rd_error (runDetails body)) ;;;
  cascade_if_needed principal runWithoutSteps ;;;
  ret {| uploadUrl := uploadUrl |}.

End Controller.

Arguments engineResponseWatcher_publish {World} s _ _ _ _.
Arguments flowRunService_updateRun {World} s _ _.
Arguments flowRunService_updateLogsAndReturnUploadUrl {World} s _ _.
Arguments flowRunService_pause {World} s _ _ _.
Arguments flowRunService_getOneOrThrow {World} s _ _ _.
Arguments flowConsumer_update {World} s _ _.
Arguments domainHelper_getPublicApiUrl {World} s _ _ _.
Arguments domainHelper_getPublicUrl {World} s _ _ _.
Arguments apAxios_post {World} s _ _ _.
Arguments ret {World A} a w.
Arguments bind {World A B} m k w.
Arguments await {World A} c ev w.
Arguments tell {World} e w.
Arguments lift {World A} r w.
Arguments outcome {World A} x.
Arguments world_of {World A} x.
Arguments trace {World A} x.
Arguments getFlowResponse result : simpl never.
Arguments markJobAsCompleted {World} svc status jobId enginePrincipal error w.
Arguments markParentRunAsFailed {World} svc params w.
Arguments update_run {World} svc principal body w.
Arguments update_run_by_steps {World} svc principal body w.
Arguments respond {World} svc body w.
Arguments persist {World} svc principal body w.
Arguments logs_or_broadcast {World} svc principal body runWithoutSteps w.
Arguments pause_if_paused {World} svc body w.
Arguments cascade_if_needed {World} svc principal runWithoutSteps w.

(** ** What a trace shows *)

(** The publishes to the response waiter: request id, handler id, payload. *)
Definition publishes (tr : list Event)
  : list (string * string * EngineHttpResponse) :=
  omap (fun e => match e with
                 | Publish r h resp _ => Some (r, h, resp)
                 | _ => None
                 end) tr.

(** The calls to [flowRunService.updateRun]. *)
Definition store_updates (tr : list Event) : list UpdateRunParams :=
  omap (fun e => match e with
                 | UpdateRun p _ => Some p
                 | _ => None
                 end) tr.

(** The run that the run store returned from the update, if it did. *)
Definition persisted (tr : list Event) : option FlowRun :=
  head (omap (fun e => match e with
                       | UpdateRun _ (Ok r) => Some r
                       | _ => None
                       end) tr).

(** The requests of a log-upload target, each with its outcome. *)
Definition uploads (tr : list Event)
  : list (UpdateLogsParams * Result (option string)) :=
  omap (fun e => match e with
                 | UpdateLogs p out => Some (p, out)
                 | _ => None
                 end) tr.

(** The broadcasts on the socket: room, event, data. *)
Definition broadcasts (tr : list Event)
  : list (string * WebsocketClientEvent.t * string) :=
  omap (fun e => match e with
                 | Emit room ev data => Some (room, ev, data)
                 | _ => None
                 end) tr.

(** The pause metadata handed to the run store: run id, metadata. *)
Definition pauses (tr : list Event) : list (string * Js.Obj) :=
  omap (fun e => match e with
                 | Pause id pm _ => Some (id, pm)
                 | _ => None
                 end) tr.

(** The queue acknowledgments. *)
Definition acks (tr : list Event) : list UpdateJobParams :=
  omap (fun e => match e with
                 | UpdateJob p _ => Some p
                 | _ => None
                 end) tr.

(** The invocations of the parent cascade. *)
Definition cascades (tr : list Event) : list MarkParentRunAsFailedParams :=
  omap (fun e => match e with
                 | Cascade p => Some p
                 | _ => None
                 end) tr.

(** The outbound notifications: url, body, outcome. *)
Definition posts (tr : list Event)
  : list (string * CallbackBody * Result unit) :=
  omap (fun e => match e with
                 | Post url b out => Some (url, b, out)
                 | _ => None
                 end) tr.

(** The outcome of the call an event records; an event without an outcome
    counts as returned. *)
Definition returned (e : Event) : bool :=
  match e with
  | Cascade _ | Emit _ _ _ => true
  | Publish _ _ _ out | Pause _ _ out | UpdateJob _ out | Post _ _ out =>
      is_Ok out
  | UpdateRun _ out | GetOne _ _ out => is_Ok out
  | UpdateLogs _ out => is_Ok out
  | GetPublicApiUrl _ _ out | GetPublicUrl _ _ out => is_Ok out
  end.

(** Every event. *)
Definition any_call (e : Event) : bool := true.

(** An event of the run store. *)
Definition of_store (e : Event) : bool :=
  match e with
  | UpdateRun _ _ | UpdateLogs _ _ | Pause _ _ _ => true
  | _ => false
  end.

(** A request of a log-upload target. *)
Definition of_logs (e : Event) : bool :=
  match e with
  | UpdateLogs _ _ => true
  | _ => false
  end.


(** The calls of the trace, among those that [which] selects, that threw. *)
Definition thrown_calls (which : Event -> bool) (tr : list Event) : list Event :=
  omap (fun e => if which e && negb (returned e) then Some e else None) tr.

(** The step of the handler that makes an event. *)
Inductive Step : Set :=
| Respond | Persist | LogsOrBroadcast | PauseRun | Acknowledge | CascadeToParent.

Definition step_of (e : Event) : Step :=
  match e with
  | Publish _ _ _ _ => Respond
  | UpdateRun _ _ => Persist
  | UpdateLogs _ _ | Emit _ _ _ => LogsOrBroadcast
  | Pause _ _ _ => PauseRun
  | UpdateJob _ _ => Acknowledge
  | Cascade _ | GetOne _ _ _ | GetPublicApiUrl _ _ _ | GetPublicUrl _ _ _
  | Post _ _ _ => CascadeToParent
  end.

(** An event of a step after the store update: neither a publish nor a
    store update. *)
Definition later_step (e : Event) : Prop :=
  step_of e <> Respond /\ step_of e <> Persist.

(** ** The runs of the handler

    [Run svc principal body w out tr]: from the world [w] the handler ends
    with the outcome [out] after the trace [tr].  A run stops at the first
    step that throws; there is one rule for each place where it can stop. *)

Section Runs.

Context {World : Type} (svc : Services World).
Variables (principal : EnginePrincipal) (body : UpdateRunProgressRequest).

Inductive Run (w : World)
  : Result UpdateRunProgressResponse -> list Event -> Prop :=
| stops_at_respond e w1 t1 :
    respond svc body w = (Err e, w1, t1) ->
    Run w (Err e) t1
| stops_at_persist u1 w1 t1 e w2 t2 :
    respond svc body w = (Ok u1, w1, t1) ->
    persist svc principal body w1 = (Err e, w2, t2) ->
    Run w (Err e) (t1 ++ t2)
| stops_at_logs u1 w1 t1 r w2 t2 e w3 t3 :
    respond svc body w = (Ok u1, w1, t1) ->
    persist svc principal body w1 = (Ok r, w2, t2) ->
    logs_or_broadcast svc principal body r w2 = (Err e, w3, t3) ->
    Run w (Err e) (t1 ++ t2 ++ t3)
| stops_at_pause u1 w1 t1 r w2 t2 url w3 t3 e w4 t4 :
    respond svc body w = (Ok u1, w1, t1) ->
    persist svc principal body w1 = (Ok r, w2, t2) ->
    logs_or_broadcast svc principal body r w2 = (Ok url, w3, t3) ->
    pause_if_paused svc body w3 = (Err e, w4, t4) ->
    Run w (Err e) (t1 ++ t2 ++ t3 ++ t4)
| stops_at_acknowledge u1 w1 t1 r w2 t2 url w3 t3 u4 w4 t4 e w5 t5 :
    respond svc body w = (Ok u1, w1, t1) ->
    persist svc principal body w1 = (Ok r, w2, t2) ->
    logs_or_broadcast svc principal body r w2 = (Ok url, w3, t3) ->
    pause_if_paused svc body w3 = (Ok u4, w4, t4) ->
    markJobAsCompleted svc (run_status r) (run_id r) principal
      (rd_error (runDetails body)) w4 = (Err e, w5, t5) ->
    Run w (Err e) (t1 ++ t2 ++ t3 ++ t4 ++ t5)
| stops_at_cascade u1 w1 t1 r w2 t2 url w3 t3 u4 w4 t4 u5 w5 t5 e w6 t6 :
    respond svc body w = (Ok u1, w1, t1) ->
    persist svc principal body w1 = (Ok r, w2, t2) ->
    logs_or_broadcast svc principal body r w2 = (Ok url, w3, t3) ->
    pause_if_paused svc body w3 = (Ok u4, w4, t4) ->
    markJobAsCompleted svc (run_status r) (run_id r) principal
      (rd_error (runDetails body)) w4 = (Ok u5, w5, t5) ->
    cascade_if_needed svc principal r w5 = (Err e, w6, t6) ->
    Run w (Err e) (t1 ++ t2 ++ t3 ++ t4 ++ t5 ++ t6)
| returns u1 w1 t1 r w2 t2 url w3 t3 u4 w4 t4 u5 w5 t5 u6 w6 t6 :
    respond svc body w = (Ok u1, w1, t1) ->
    persist svc principal body w1 = (Ok r, w2, t2) ->
    logs_or_broadcast svc principal body r w2 = (Ok url, w3, t3) ->
    pause_if_paused svc body w3 = (Ok u4, w4, t4) ->
    markJobAsCompleted svc (run_status r) (run_id r) principal
      (rd_error (runDetails body)) w4 = (Ok u5, w5, t5) ->
    cascade_if_needed svc principal r w5 = (Ok u6, w6, t6) ->
    Run w (Ok {| uploadUrl := url |}) (t1 ++ t2 ++ t3 ++ t4 ++ t5 ++ t6).

End Runs.

(** ** Sample services and reports

    A world without state; the run store answers an update with the run
    that [stored] makes of it, and the parent run it loads is [parent]. *)

Definition sample_services (stored : UpdateRunParams -> FlowRun)
    (parent : Result FlowRun) (delivery : Result unit) : Services unit :=
  {| engineResponseWatcher_publish := fun _ _ _ w => (Ok tt, w);
     flowRunService_updateRun := fun p w => (Ok (stored p), w);
     flowRunService_updateLogsAndReturnUploadUrl :=
       fun p w => (Ok (Some ("https://files/" +:+ ul_flowRunId p)), w);
     flowRunService_pause := fun _ _ w => (Ok tt, w);
     flowRunService_getOneOrThrow := fun _ _ w => (parent, w);
     flowConsumer_update := fun _ w => (Ok tt, w);
     domainHelper_getPublicApiUrl := fun path _ w => (Ok ("https://api" +:+ path), w);
     domainHelper_getPublicUrl := fun path _ w => (Ok ("https://app" +:+ path), w);
     apAxios_post := fun _ _ w => (delivery, w) |}.

(** A run without a parent, in the status of the report. *)
Definition stored_alone (p : UpdateRunParams) : FlowRun :=
  {| run_id := ur_flowRunId p;
     run_projectId := ur_projectId p;
     run_status := ur_status p;
     run_logsFileId := None;
     run_failParentOnFailure := false;
     run_parentRunId := None;
     run_pauseMetadata := None |}.

(** A run started by the run [parent-1], which it fails when it fails. *)
Definition stored_child (p : UpdateRunParams) : FlowRun :=
  {| run_id := ur_flowRunId p;
     run_projectId := ur_projectId p;
     run_status := ur_status p;
     run_logsFileId := Some "logs-1";
     run_failParentOnFailure := true;
     run_parentRunId := Some "parent-1";
     run_pauseMetadata := None |}.

(** The parent run, paused on a webhook with the request id [req-7]. *)
Definition parent_on_webhook : FlowRun :=
  {| run_id := "parent-1";
     run_projectId := "project-1";
     run_status := FlowRunStatus.PAUSED;
     run_logsFileId := None;
     run_failParentOnFailure := false;
     run_parentRunId := None;
     run_pauseMetadata :=
       Some (<[ "type" := Js.Str "WEBHOOK" ]> {[ "requestId" := Js.Str "req-7" ]}) |}.

(** The parent run, paused on a delay. *)
Definition parent_on_delay : FlowRun :=
  {| run_id := "parent-1";
     run_projectId := "project-1";
     run_status := FlowRunStatus.PAUSED;
     run_logsFileId := None;
     run_failParentOnFailure := false;
     run_parentRunId := None;
     run_pauseMetadata := Some {[ "type" := Js.Str "DELAY" ]} |}.

Definition sample_principal : EnginePrincipal :=
  {| principal_id := "job-1";
     principal_projectId := "project-1";
     principal_platform_id := "platform-1";
     queueToken := Some "token-1" |}.

Definition sample_details (status : FlowRunStatus.t) : FlowRunResponse :=
  {| rd_status := status;
     rd_tasks := 3;
     rd_duration := 1200;
     rd_tags := None;
     rd_pauseMetadata := None;
     rd_error := Js.Undefined |}.

(** A report of [status], with or without the two identifiers of a waiting
    caller. *)
Definition sample_report (status : FlowRunStatus.t)
    (workerHandlerId httpRequestId : option string) : UpdateRunProgressRequest :=
  {| runId := "run-1";
     workerHandlerId := workerHandlerId;
     runDetails := sample_details status;
     httpRequestId := httpRequestId;
     executionStateBuffer := None;
     executionStateContentLength := None;
     failedStepName := None;
     progressUpdateType := None |}.


(** ** The runs of the parent cascade

    The path of the callback of a parent run, the path of the page of the
    child run and the body of the notification, as [markParentRunAsFailed]
    builds them. *)

Definition callback_path (parentRunId : string) (requestId : Js.Value) : string :=
  "/v1/flow-runs/" +:+ parentRunId +:+ "/requests/" +:+ Js.to_string requestId.

Definition child_run_path (projectId childRunId : string) : string :=
  "/projects/" +:+ projectId +:+ "/runs/" +:+ childRunId.

Definition callback_body (childRunUrl : string) : CallbackBody :=
  {| cb_status := "error";
     cb_data := {| cb_message := "Subflow execution failed";
                   cb_link := childRunUrl |} |}.

Section CascadeRuns.

Context {World : Type} (svc : Services World).
Variable params : MarkParentRunAsFailedParams.

(** [CascadeRun svc params w out w' tr]: from the world [w] the cascade ends
    with the outcome [out] in the world [w'] after the trace [tr]; there is
    one rule for each place where it can stop. *)
Inductive CascadeRun (w : World)
  : Result unit -> World -> list Event -> Prop :=
| parent_not_loaded e w1 :
    flowRunService_getOneOrThrow svc (mp_parentRunId params)
      (mp_projectId params) w = (Err e, w1) ->
    CascadeRun w (Err e) w1
      [Cascade params;
       GetOne (mp_parentRunId params) (mp_projectId params) (Err e)]
| parent_without_request parent w1 :
    flowRunService_getOneOrThrow svc (mp_parentRunId params)
      (mp_projectId params) w = (Ok parent, w1) ->
    Js.isNil (webhook_requestId parent) = true ->
    CascadeRun w (Err (NullOrUndefined "Parent run has no request id")) w1
      [Cascade params;
       GetOne (mp_parentRunId params) (mp_projectId params) (Ok parent)]
| callback_not_resolved parent w1 e w2 :
    flowRunService_getOneOrThrow svc (mp_parentRunId params)
      (mp_projectId params) w = (Ok parent, w1) ->
    Js.isNil (webhook_requestId parent) = false ->
    domainHelper_getPublicApiUrl svc
      (callback_path (mp_parentRunId params) (webhook_requestId parent))
      (mp_platformId params) w1 = (Err e, w2) ->
    CascadeRun w (Err e) w2
      [Cascade params;
       GetOne (mp_parentRunId params) (mp_projectId params) (Ok parent);
       GetPublicApiUrl
         (callback_path (mp_parentRunId params) (webhook_requestId parent))
         (mp_platformId params) (Err e)]
| link_not_resolved parent w1 callbackUrl w2 e w3 :
    flowRunService_getOneOrThrow svc (mp_parentRunId params)
      (mp_projectId params) w = (Ok parent, w1) ->
    Js.isNil (webhook_requestId parent) = false ->
    domainHelper_getPublicApiUrl svc
      (callback_path (mp_parentRunId params) (webhook_requestId parent))
      (mp_platformId params) w1 = (Ok callbackUrl, w2) ->
    domainHelper_getPublicUrl svc
      (child_run_path (mp_projectId params) (mp_childRunId params))
      (mp_platformId params) w2 = (Err e, w3) ->
    CascadeRun w (Err e) w3
      [Cascade params;
       GetOne (mp_parentRunId params) (mp_projectId params) (Ok parent);
       GetPublicApiUrl
         (callback_path (mp_parentRunId params) (webhook_requestId parent))
         (mp_platformId params) (Ok callbackUrl);
       GetPublicUrl
         (child_run_path (mp_projectId params) (mp_childRunId params))
         (mp_platformId params) (Err e)]
| notification_posted parent w1 callbackUrl w2 childRunUrl w3 out w4 :
    flowRunService_getOneOrThrow svc (mp_parentRunId params)
      (mp_projectId params) w = (Ok parent, w1) ->
    Js.isNil (webhook_requestId parent) = false ->
    domainHelper_getPublicApiUrl svc
      (callback_path (mp_parentRunId params) (webhook_requestId parent))
      (mp_platformId params) w1 = (Ok callbackUrl, w2) ->
    domainHelper_getPublicUrl svc
      (child_run_path (mp_projectId params) (mp_childRunId params))
      (mp_platformId params) w2 = (Ok childRunUrl, w3) ->
    apAxios_post svc callbackUrl (callback_body childRunUrl) w3 = (out, w4) ->
    CascadeRun w out w4
      [Cascade params;
       GetOne (mp_parentRunId params) (mp_projectId params) (Ok parent);
       GetPublicApiUrl
         (callback_path (mp_parentRunId params) (webhook_requestId parent))
         (mp_platformId params) (Ok callbackUrl);
       GetPublicUrl
         (child_run_path (mp_projectId params) (mp_childRunId params))
         (mp_platformId params) (Ok childRunUrl);
       Post callbackUrl (callback_body childRunUrl) out].

End CascadeRuns.

(** [webhook_request_of parent requestId]: the pause metadata of the parent
    run is of the webhook type and carries the request id [requestId]. *)
Definition webhook_request_of (parent : FlowRun) (requestId : Js.Value) : Prop :=
  exists pm,
    run_pauseMetadata parent = Some pm
    /\ pm !! "type" = Some (Js.Str "WEBHOOK")
    /\ pm !! "requestId" = Some requestId
    /\ Js.isNil requestId = false.

(** An INTERNAL_ERROR report with the error boom and no waiting caller. *)
Definition report_boom : UpdateRunProgressRequest :=
  {| runId := "run-1";
     workerHandlerId := None;
     runDetails :=
       {| rd_status := FlowRunStatus.INTERNAL_ERROR;
          rd_tasks := 0;
          rd_duration := 15;
          rd_tags := None;
          rd_pauseMetadata := None;
          rd_error := Js.Str "boom" |};
     httpRequestId := None;
     executionStateBuffer := None;
     executionStateContentLength := None;
     failedStepName := None;
     progressUpdateType := None |}.

(** A PAUSED report of the worker handler h2, with the pause metadata
    {pauseType: WEBHOOK, requestId: r9}. *)
Definition report_paused : UpdateRunProgressRequest :=
  {| runId := "run-1";
     workerHandlerId := Some "h2";
     runDetails :=
       {| rd_status := FlowRunStatus.PAUSED;
          rd_tasks := 2;
          rd_duration := 40;
          rd_tags := None;
          rd_pauseMetadata :=
            Some {[ "pauseType" := Js.Str "WEBHOOK"; "requestId" := Js.Str "r9" ]};
          rd_error := Js.Undefined |};
     httpRequestId := None;
     executionStateBuffer := None;
     executionStateContentLength := None;
     failedStepName := None;
     progressUpdateType := None |}.

(** A RUNNING report that announces 512 bytes of execution state. *)
Definition report_with_logs : UpdateRunProgressRequest :=
  {| runId := "run-1";
     workerHandlerId := None;
     runDetails := sample_details FlowRunStatus.RUNNING;
     httpRequestId := None;
     executionStateBuffer := None;
     executionStateContentLength := Some 512;
     failedStepName := None;
     progressUpdateType := None |}.

(** [contains s sub]: [sub] occurs in [s]. *)
Definition contains (s sub : string) : Prop :=
  exists pre post, s = pre +:+ sub +:+ post.

(** ** The routes [/update-job] and [/update-flow-response] *)

(** Modelled from the spec: [ApEnvironment] of [@activepieces/shared]; the
    file names its member TESTING. *)
Module ApEnvironment.
Inductive t : Set := PRODUCTION | DEVELOPMENT | TESTING.

Definition eqb (a b : t) : bool :=
  match a, b with
  | PRODUCTION, PRODUCTION | DEVELOPMENT, DEVELOPMENT | TESTING, TESTING => true
  | _, _ => false
  end.
End ApEnvironment.

(** [UpdateJobRequest], the body of [/update-job]. *)
Record UpdateJobRequest : Type := {
  job_queueName : QueueName.t;
  job_status : JobStatus.t;
  job_message : option string;
}.

(** [SendFlowResponseRequest], the body of [/update-flow-response]. *)
Record SendFlowResponseRequest : Type := {
  fr_workerHandlerId : string;
  fr_httpRequestId : string;
  fr_runResponse : EngineHttpResponse;
}.

Section Routes.

Context {World : Type} (svc : Services World).

(** The handler of [POST /update-job].  [environment] is what
    [system.getOrThrow(AppSystemProp.ENVIRONMENT)] returns or throws. *)
Definition update_job (environment : Result ApEnvironment.t)
    (principal : EnginePrincipal) (body : UpdateJobRequest) : Async World unit :=
  bind (lift environment) (fun environment =>
    if ApEnvironment.eqb environment ApEnvironment.TESTING then ret tt
    else
      bind (lift (assertNotNullOrUndefined
                    (from_option Js.Str Js.Undefined (queueToken principal))
                    "queueToken")) (fun _ =>
        let p := {| uj_jobId := principal_id principal;
                    uj_queueName := job_queueName body;
                    uj_status := job_status body;
                    uj_token := queueToken principal;
                    uj_message := default "NO_MESSAGE_AVAILABLE" (job_message body) |} in
        await (flowConsumer_update svc p) (UpdateJob p))).

(** The handler of [POST /update-flow-response]. *)
Definition update_flow_response (body : SendFlowResponseRequest)
  : Async World unit :=
  bind (await (engineResponseWatcher_publish svc (fr_httpRequestId body)
                 (fr_workerHandlerId body) (fr_runResponse body))
              (Publish (fr_httpRequestId body) (fr_workerHandlerId body)
                 (fr_runResponse body)))
       (fun _ => ret tt).

End Routes.

(** ** More of what a trace shows *)

(** The place of a step in the handler. *)
Definition step_rank (s : Step) : nat :=
  match s with
  | Respond => 0
  | Persist => 1
  | LogsOrBroadcast => 2
  | PauseRun => 3
  | Acknowledge => 4
  | CascadeToParent => 5
  end.

(** [in_handler_order a b]: the step of [a] does not come after the step of
    [b]. *)
Definition in_handler_order (a b : Event) : Prop :=
  (step_rank (step_of a) <= step_rank (step_of b))%nat.

(** What an outcome threw, if it threw. *)
Definition thrown_by {A} (out : Result A) : option Thrown :=
  match out with
  | Ok _ => None
  | Err e => Some e
  end.

(** What the call of an event threw, if it threw. *)
Definition error_of (e : Event) : option Thrown :=
  match e with
  | Cascade _ | Emit _ _ _ => None
  | Publish _ _ _ out | Pause _ _ out | UpdateJob _ out | Post _ _ out =>
      thrown_by out
  | UpdateRun _ out | GetOne _ _ out => thrown_by out
  | UpdateLogs _ out => thrown_by out
  | GetPublicApiUrl _ _ out | GetPublicUrl _ _ out => thrown_by out
  end.

(** [stops_at oe t]: a call of [t] that threw is the last call of [t], and
    what it threw is [oe]. *)
Definition stops_at (oe : option Thrown) (t : list Event) : Prop :=
  forall ev, In ev t -> returned ev = false ->
             last t = Some ev /\ error_of ev = oe.

(** A run store that rejects every update. *)
Definition store_down : Services unit :=
  {| engineResponseWatcher_publish := fun _ _ _ w => (Ok tt, w);
     flowRunService_updateRun := fun _ w => (Err (Rejected "ECONNREFUSED"), w);
     flowRunService_updateLogsAndReturnUploadUrl := fun _ w => (Ok None, w);
     flowRunService_pause := fun _ _ w => (Ok tt, w);
     flowRunService_getOneOrThrow := fun _ _ w => (Ok parent_on_webhook, w);
     flowConsumer_update := fun _ w => (Ok tt, w);
     domainHelper_getPublicApiUrl := fun path _ w => (Ok path, w);
     domainHelper_getPublicUrl := fun path _ w => (Ok path, w);
     apAxios_post := fun _ _ w => (Ok tt, w) |}.

(** A response waiter that rejects every publish. *)
Definition waiter_down : Services unit :=
  {| engineResponseWatcher_publish := fun _ _ _ w => (Err (Rejected "EPIPE"), w);
     flowRunService_updateRun := fun p w => (Ok (stored_alone p), w);
     flowRunService_updateLogsAndReturnUploadUrl := fun _ w => (Ok None, w);
     flowRunService_pause := fun _ _ w => (Ok tt, w);
     flowRunService_getOneOrThrow := fun _ _ w => (Ok parent_on_webhook, w);
     flowConsumer_update := fun _ w => (Ok tt, w);
     domainHelper_getPublicApiUrl := fun path _ w => (Ok path, w);
     domainHelper_getPublicUrl := fun path _ w => (Ok path, w);
     apAxios_post := fun _ _ w => (Ok tt, w) |}.

(** A body of [/update-job] that completes a job and says nothing. *)
Definition sample_job : UpdateJobRequest :=
  {| job_queueName := QueueName.ONE_TIME;
     job_status := JobStatus.COMPLETED;
     job_message := None |}.

(** The response of a flow to the caller r1 of the handler h1. *)
Definition sample_flow_response : SendFlowResponseRequest :=
  {| fr_workerHandlerId := "h1";
     fr_httpRequestId := "r1";
     fr_runResponse := {| resp_status := 200;
                          resp_body := {[ "answer" := Js.Number 42 ]};
                          resp_headers := ∅ |} |}.

(** An engine principal that holds no queue token. *)
Definition tokenless_principal : EnginePrincipal :=
  {| principal_id := "job-1";
     principal_projectId := "project-1";
     principal_platform_id := "platform-1";
     queueToken := None |}.

(** * Properties *)

(** ** The model on concrete inputs *)

Example stringify_string :
  Js.stringify (Js.Str "boom") = Some (Js.dquote +:+ "boom" +:+ Js.dquote).
Proof. reflexivity. Qed.

Example stringify_object :
  Js.stringify (Js.Object [("stepName", Js.Str "step_1"); ("skipped", Js.Undefined);
                           ("codes", Js.Array [Js.Number 7; Js.Undefined; Js.Bool true])])
  = Some ("{" +:+ Js.dquote +:+ "stepName" +:+ Js.dquote +:+ ":"
          +:+ Js.dquote +:+ "step_1" +:+ Js.dquote +:+ ","
          +:+ Js.dquote +:+ "codes" +:+ Js.dquote +:+ ":[7,null,true]}").
Proof. reflexivity. Qed.

Example stringify_undefined : Js.template (Js.stringify Js.Undefined) = "undefined".
Proof. reflexivity. Qed.

Example getFlowResponse_quota :
  getFlowResponse (sample_details FlowRunStatus.QUOTA_EXCEEDED)
  = Ok {| resp_status := 204; resp_body := ∅; resp_headers := ∅ |}.
Proof. reflexivity. Qed.

Example getFlowResponse_running :
  getFlowResponse (sample_details FlowRunStatus.RUNNING)
  = Err (Error "Unexpected flow run status: RUNNING").
Proof. reflexivity. Qed.

(** The steps that the update of a FAILED child run goes through. *)
Example steps_of_failed_child :
  step_of <$> trace (update_run
                       (sample_services stored_child (Ok parent_on_webhook) (Ok tt))
                       sample_principal
                       (sample_report FlowRunStatus.FAILED (Some "h1") (Some "r1")) tt)
  = [Respond; Persist; LogsOrBroadcast; Acknowledge; CascadeToParent;
     CascadeToParent; CascadeToParent; CascadeToParent; CascadeToParent].
Proof. reflexivity. Qed.

(** The same update when the parent run waits on a delay: the cascade stops
    after it has loaded the parent, and the handler throws. *)
Example failed_child_of_delayed_parent :
  outcome (update_run
             (sample_services stored_child (Ok parent_on_delay) (Ok tt))
             sample_principal
             (sample_report FlowRunStatus.FAILED None None) tt)
  = Err (NullOrUndefined "Parent run has no request id").
Proof. reflexivity. Qed.

(** ** The monad and the steps *)

Section Steps.

Context {World : Type} (svc : Services World).

Implicit Types (w : World) (tr : list Event) (body : UpdateRunProgressRequest)
  (principal : EnginePrincipal).

(** The handler is the sequence of its steps. *)
Lemma update_run_steps principal body w :
  update_run svc principal body w = update_run_by_steps svc principal body w.
Proof. reflexivity. Qed.

Lemma bind_Ok {A B} (m : Async World A) (k : A -> Async World B) w a w1 t1 :
  m w = (Ok a, w1, t1) ->
  bind m k w = (outcome (k a w1), world_of (k a w1), t1 ++ trace (k a w1)).
Proof.
  intros E. unfold bind. rewrite E. by destruct (k a w1) as [[? ?] ?].
Qed.

Lemma bind_Err {A B} (m : Async World A) (k : A -> Async World B) w e w1 t1 :
  m w = (Err e, w1, t1) -> bind m k w = (Err e, w1, t1).
Proof. intros E. unfold bind. by rewrite E. Qed.

(** A projection of the trace that only looks at the events of one step
    sees nothing in the trace of another step. *)
Lemma omap_other_step {X} (f : Event -> option X) (s : Step) tr :
  Forall (fun e => step_of e = s) tr ->
  (forall e, step_of e = s -> f e = None) ->
  omap f tr = [].
Proof.
  intros Hall Hf. induction Hall as [|e t He _ IH]; [done|].
  simpl. by rewrite (Hf e He).
Qed.

Lemma respond_step body w :
  Forall (fun e => step_of e = Respond) (trace (respond svc body w)).
Proof.
  unfold respond.
  destruct (negb _), (workerHandlerId body), (httpRequestId body);
    try (by constructor).
  unfold bind, lift. destruct (getFlowResponse _); [|by constructor].
  unfold await. destruct (engineResponseWatcher_publish _ _ _ _ _).
  simpl. by repeat constructor.
Qed.

Lemma persist_step principal body w :
  Forall (fun e => step_of e = Persist) (trace (persist svc principal body w)).
Proof.
  unfold persist, await. destruct (flowRunService_updateRun _ _ _).
  simpl. by repeat constructor.
Qed.

Lemma logs_or_broadcast_step principal body r w :
  Forall (fun e => step_of e = LogsOrBroadcast)
    (trace (logs_or_broadcast svc principal body r w)).
Proof.
  unfold logs_or_broadcast. destruct (updateLogs body).
  - unfold await. destruct (flowRunService_updateLogsAndReturnUploadUrl _ _ _).
    simpl. by repeat constructor.
  - simpl. by repeat constructor.
Qed.

Lemma pause_if_paused_step body w :
  Forall (fun e => step_of e = PauseRun) (trace (pause_if_paused svc body w)).
Proof.
  unfold pause_if_paused. destruct (FlowRunStatus.eqb _ _); [|by constructor].
  unfold await. destruct (flowRunService_pause _ _ _ _).
  simpl. by repeat constructor.
Qed.

Lemma markJobAsCompleted_step status jobId principal error w :
  Forall (fun e => step_of e = Acknowledge)
    (trace (markJobAsCompleted svc status jobId principal error w)).
Proof.
  unfold markJobAsCompleted, await.
  destruct status; try (by constructor);
    destruct (flowConsumer_update _ _ _); simpl; by repeat constructor.
Qed.

Lemma markParentRunAsFailed_step params w :
  Forall (fun e => step_of e = CascadeToParent)
    (trace (markParentRunAsFailed svc params w)).
Proof.
  unfold markParentRunAsFailed, bind, await, tell, lift.
  destruct (flowRunService_getOneOrThrow _ _ _ _) as [[parent|?] ?]; simpl;
    [|by repeat constructor].
  destruct (assertNotNullOrUndefined _ _); simpl; [|by repeat constructor].
  destruct (domainHelper_getPublicApiUrl _ _ _ _) as [[?|?] ?]; simpl;
    [|by repeat constructor].
  destruct (domainHelper_getPublicUrl _ _ _ _) as [[?|?] ?]; simpl;
    [|by repeat constructor].
  destruct (apAxios_post _ _ _ _) as [? ?]; simpl.
  by repeat constructor.
Qed.

Lemma cascade_if_needed_step principal r w :
  Forall (fun e => step_of e = CascadeToParent)
    (trace (cascade_if_needed svc principal r w)).
Proof.
  unfold cascade_if_needed.
  destruct (shouldMarkParentAsFailed r), (run_parentRunId r);
    try (by constructor).
  apply markParentRunAsFailed_step.
Qed.

(** The first step when no response is owed: nothing happens. *)
Lemma respond_not_owed body w :
  FlowRunStatus.includes nonSupportedStatuses (rd_status (runDetails body)) = true
  \/ workerHandlerId body = None \/ httpRequestId body = None ->
  respond svc body w = (Ok tt, w, []).
Proof.
  unfold respond. intros [H | [H | H]]; rewrite H; simpl; try done.
  - by destruct (negb _).
  - by destruct (negb _), (workerHandlerId body).
Qed.

(** The first step when a response is owed. *)
Lemma respond_owed body w h r :
  FlowRunStatus.includes nonSupportedStatuses (rd_status (runDetails body)) = false ->
  workerHandlerId body = Some h -> httpRequestId body = Some r ->
  respond svc body w =
    match getFlowResponse (runDetails body) with
    | Ok response =>
        (fst (engineResponseWatcher_publish svc r h response w),
         snd (engineResponseWatcher_publish svc r h response w),
         [Publish r h response
            (fst (engineResponseWatcher_publish svc r h response w))])
    | Err e => (Err e, w, [])
    end.
Proof.
  unfold respond. intros -> -> ->. simpl. unfold bind, lift, await.
  destruct (getFlowResponse _); [|done].
  by destruct (engineResponseWatcher_publish _ _ _ _ _).
Qed.

(** *** What a step leaves in the trace *)

Lemma persist_inv principal body w o w1 t :
  persist svc principal body w = (o, w1, t) ->
  t = [UpdateRun (update_run_params principal body) o].
Proof.
  unfold persist, await. destruct (flowRunService_updateRun _ _ _).
  by intros [= <- <- <-].
Qed.

Lemma logs_or_broadcast_inv principal body r w o w1 t :
  logs_or_broadcast svc principal body r w = (o, w1, t) ->
  (updateLogs body = true /\
   t = [UpdateLogs (update_logs_params principal body r) o])
  \/ (updateLogs body = false /\ o = Ok None /\
      t = [Emit (principal_projectId principal)
             WebsocketClientEvent.FLOW_RUN_PROGRESS (runId body)]).
Proof.
  unfold logs_or_broadcast. destruct (updateLogs body).
  - unfold await. destruct (flowRunService_updateLogsAndReturnUploadUrl _ _ _).
    intros [= <- <- <-]. by left.
  - intros [= <- <- <-]. by right.
Qed.

Lemma pause_if_paused_inv body w o w1 t :
  pause_if_paused svc body w = (o, w1, t) ->
  (rd_status (runDetails body) = FlowRunStatus.PAUSED /\
   t = [Pause (runId body) (report_pause_metadata body) o])
  \/ (rd_status (runDetails body) <> FlowRunStatus.PAUSED /\ o = Ok tt /\ t = []).
Proof.
  unfold pause_if_paused.
  destruct (rd_status (runDetails body)); cbn [FlowRunStatus.eqb];
    try (intros [= <- <- <-]; by right).
  unfold await. destruct (flowRunService_pause _ _ _ _).
  intros [= <- <- <-]. by left.
Qed.

Lemma markJobAsCompleted_inv status jobId principal error w o w1 t :
  markJobAsCompleted svc status jobId principal error w = (o, w1, t) ->
  match status with
  | FlowRunStatus.QUEUED | FlowRunStatus.RUNNING => o = Ok tt /\ t = []
  | FlowRunStatus.INTERNAL_ERROR =>
      t = [UpdateJob
             {| uj_jobId := jobId; uj_queueName := QueueName.ONE_TIME;
                uj_status := JobStatus.FAILED;
                uj_token := queueToken principal;
                uj_message := "Internal error reported by engine: "
                              +:+ Js.template (Js.stringify error) |} o]
  | _ =>
      t = [UpdateJob
             {| uj_jobId := jobId; uj_queueName := QueueName.ONE_TIME;
                uj_status := JobStatus.COMPLETED;
                uj_token := queueToken principal;
                uj_message := "Flow succeeded" |} o]
  end.
Proof.
  unfold markJobAsCompleted, await.
  destruct status; try (by intros [= <- <- <-]);
    destruct (flowConsumer_update _ _ _); by intros [= <- <- <-].
Qed.

Lemma cascade_if_needed_inv principal r w o w1 t :
  cascade_if_needed svc principal r w = (o, w1, t) ->
  (shouldMarkParentAsFailed r = true /\
   exists parentRunId,
     run_parentRunId r = Some parentRunId /\
     markParentRunAsFailed svc (cascade_params principal r parentRunId) w
     = (o, w1, t))
  \/ (shouldMarkParentAsFailed r = false /\ o = Ok tt /\ t = []).
Proof.
  unfold cascade_if_needed, shouldMarkParentAsFailed.
  destruct (run_failParentOnFailure r), (run_parentRunId r) as [q|];
    cbn [andb negb isNil];
    try (intros [= <- <- <-]; by right).
  destruct (negb _).
  - intros E. left. split; [done|]. by exists q.
  - intros [= <- <- <-]. by right.
Qed.


End Steps.

(** Run the handler one step further: split on the outcome of the step at
    the head of the remaining sequence. *)
Ltac run_step E :=
  match goal with
  | |- context [bind ?m ?k ?w] =>
      destruct (m w) as [[[?|?] ?] ?] eqn:E;
      [ rewrite (bind_Ok m k w _ _ _ E) | rewrite (bind_Err m k w _ _ _ E) ];
      cbn [outcome trace world_of fst snd]
  end.

(** What each step of a run contributed to the trace. *)
Ltac step_facts :=
  repeat match goal with
  | E : respond ?s ?b ?w = (_, _, ?t) |- _ =>
      lazymatch goal with
      | _ : Forall _ t |- _ => fail
      | _ => let H := fresh "S" in
             pose proof (respond_step s b w) as H; rewrite E in H;
             cbn [trace snd] in H
      end
  | E : persist ?s ?p ?b ?w = (_, _, ?t) |- _ =>
      lazymatch goal with
      | _ : Forall _ t |- _ => fail
      | _ => let H := fresh "S" in
             pose proof (persist_step s p b w) as H; rewrite E in H;
             cbn [trace snd] in H
      end
  | E : logs_or_broadcast ?s ?p ?b ?r ?w = (_, _, ?t) |- _ =>
      lazymatch goal with
      | _ : Forall _ t |- _ => fail
      | _ => let H := fresh "S" in
             pose proof (logs_or_broadcast_step s p b r w) as H; rewrite E in H;
             cbn [trace snd] in H
      end
  | E : pause_if_paused ?s ?b ?w = (_, _, ?t) |- _ =>
      lazymatch goal with
      | _ : Forall _ t |- _ => fail
      | _ => let H := fresh "S" in
             pose proof (pause_if_paused_step s b w) as H; rewrite E in H;
             cbn [trace snd] in H
      end
  | E : markJobAsCompleted ?s ?st ?j ?p ?err ?w = (_, _, ?t) |- _ =>
      lazymatch goal with
      | _ : Forall _ t |- _ => fail
      | _ => let H := fresh "S" in
             pose proof (markJobAsCompleted_step s st j p err w) as H;
             rewrite E in H; cbn [trace snd] in H
      end
  | E : cascade_if_needed ?s ?p ?r ?w = (_, _, ?t) |- _ =>
      lazymatch goal with
      | _ : Forall _ t |- _ => fail
      | _ => let H := fresh "S" in
             pose proof (cascade_if_needed_step s p r w) as H; rewrite E in H;
             cbn [trace snd] in H
      end
  end.

(** A projection of the trace skips the steps it does not look at. *)
Ltac skip_steps :=
  rewrite ?omap_app;
  repeat match goal with
  | H : Forall (fun e => step_of e = _) ?t |- context [omap ?f ?t] =>
      rewrite (omap_other_step f _ t H) by (intros []; done)
  end;
  rewrite ?app_nil_r, ?app_nil_l.

(** Two equations for the same call have the same right-hand side. *)
Ltac same_calls :=
  repeat match goal with
  | H1 : ?c = _, H2 : ?c = _ |- _ => rewrite H1 in H2; simplify_eq
  end.

(** Read the trace of each step of a run off the equation of the step. *)
Ltac invert_steps :=
  repeat match goal with
  | E : persist _ _ _ _ = _ |- _ => apply persist_inv in E; subst
  | E : logs_or_broadcast _ _ _ _ _ = _ |- _ =>
      apply logs_or_broadcast_inv in E as [[? ->] | (? & ? & ->)]
  | E : pause_if_paused _ _ _ = _ |- _ =>
      apply pause_if_paused_inv in E as [[? ->] | (? & ? & ->)]
  | E : markJobAsCompleted _ _ _ _ _ _ = _ |- _ =>
      apply markJobAsCompleted_inv in E
  end.

Section Runs_of_update_run.

Context {World : Type} (svc : Services World).

(** Every execution of the handler is one of the runs. *)
Lemma update_run_Run principal body w :
  Run svc principal body w
    (outcome (update_run svc principal body w))
    (trace (update_run svc principal body w)).
Proof.
  rewrite update_run_steps. unfold update_run_by_steps.
  run_step E1; [|by eapply stops_at_respond].
  run_step E2; [|by eapply stops_at_persist].
  run_step E3; [|by eapply stops_at_logs].
  run_step E4; [|by eapply stops_at_pause].
  run_step E5; [|by eapply stops_at_acknowledge].
  run_step E6; [|by eapply stops_at_cascade].
  unfold ret; cbn [outcome trace fst snd]. rewrite app_nil_r.
  by eapply returns.
Qed.

End Runs_of_update_run.

(** ** The response to a waiting caller *)

Section Response.

Context {World : Type} (svc : Services World).

(** Only the first step publishes. *)
Lemma publishes_update_run principal body w :
  publishes (trace (update_run svc principal body w))
  = publishes (trace (respond svc body w)).
Proof.
  destruct (update_run_Run svc principal body w); step_facts;
    rewrite H; cbn [trace snd]; unfold publishes; by skip_steps.
Qed.

(** C1: a report in one of the five mapped statuses that carries both
    identifiers is answered by exactly one publish under
    (httpRequestId, workerHandlerId), with the status code 500 for
    INTERNAL_ERROR, FAILED and MEMORY_LIMIT_EXCEEDED, 504 for TIMEOUT and
    204 with an empty body for QUOTA_EXCEEDED; a report in the status
    RUNNING, SUCCEEDED or PAUSED, or without one of the identifiers, is
    answered by no publish. *)
Theorem publish_follows_status_table principal body w :
  let tr := trace (update_run svc principal body w) in
  let status := rd_status (runDetails body) in
  (forall r h,
      httpRequestId body = Some r -> workerHandlerId body = Some h ->
      FlowRunStatus.includes
        [FlowRunStatus.FAILED; FlowRunStatus.TIMEOUT;
         FlowRunStatus.INTERNAL_ERROR; FlowRunStatus.QUOTA_EXCEEDED;
         FlowRunStatus.MEMORY_LIMIT_EXCEEDED] status = true ->
      exists payload,
        publishes tr = [(r, h, payload)] /\
        (status = FlowRunStatus.INTERNAL_ERROR -> resp_status payload = 500) /\
        (status = FlowRunStatus.FAILED -> resp_status payload = 500) /\
        (status = FlowRunStatus.MEMORY_LIMIT_EXCEEDED -> resp_status payload = 500) /\
        (status = FlowRunStatus.TIMEOUT -> resp_status payload = 504) /\
        (status = FlowRunStatus.QUOTA_EXCEEDED ->
         resp_status payload = 204 /\ resp_body payload = ∅))
  /\ (FlowRunStatus.includes
        [FlowRunStatus.RUNNING; FlowRunStatus.SUCCEEDED; FlowRunStatus.PAUSED]
        status = true
      \/ httpRequestId body = None \/ workerHandlerId body = None ->
      publishes tr = []).
Proof.
  intros tr status. subst tr. rewrite publishes_update_run. split.
  - intros r h Hr Hh Hs.
    assert (Hn : FlowRunStatus.includes nonSupportedStatuses status = false)
      by (subst status; destruct (rd_status (runDetails body)); done).
    rewrite (respond_owed svc body w h r Hn Hh Hr).
    unfold getFlowResponse. fold status.
    destruct status; try discriminate Hs; cbn [trace snd publishes omap];
      (eexists; split; [reflexivity|]); cbn [resp_status resp_body];
      repeat split; done.
  - intros H. rewrite respond_not_owed; [done|]. tauto.
Qed.

(** C10: a report in a status that is neither mapped to a response nor
    excluded from one (the status QUEUED), with both identifiers, makes
    [update_run] throw before it calls any service: nothing is published,
    persisted, acknowledged or cascaded, and the world is as it was. *)
Theorem unmapped_status_fails_before_any_call principal body w h r :
  FlowRunStatus.includes
    [FlowRunStatus.FAILED; FlowRunStatus.TIMEOUT;
     FlowRunStatus.INTERNAL_ERROR; FlowRunStatus.QUOTA_EXCEEDED;
     FlowRunStatus.MEMORY_LIMIT_EXCEEDED] (rd_status (runDetails body)) = false ->
  FlowRunStatus.includes
    [FlowRunStatus.RUNNING; FlowRunStatus.SUCCEEDED; FlowRunStatus.PAUSED]
    (rd_status (runDetails body)) = false ->
  workerHandlerId body = Some h ->
  httpRequestId body = Some r ->
  let x := update_run svc principal body w in
  rd_status (runDetails body) = FlowRunStatus.QUEUED
  /\ outcome x = Err (Error "Unexpected flow run status: QUEUED")
  /\ trace x = []
  /\ world_of x = w
  /\ store_updates (trace x) = []
  /\ acks (trace x) = []
  /\ cascades (trace x) = [].
Proof.
  intros Hm Hn Hh Hr x.
  assert (Hq : rd_status (runDetails body) = FlowRunStatus.QUEUED)
    by (destruct (rd_status (runDetails body)); done).
  assert (Hx : x = (Err (Error "Unexpected flow run status: QUEUED"), w, [])).
  { subst x. rewrite update_run_steps. unfold update_run_by_steps.
    erewrite bind_Err; [done|].
    rewrite (respond_owed svc body w h r Hn Hh Hr).
    unfold getFlowResponse. by rewrite Hq. }
  by rewrite Hx.
Qed.

End Response.

(** A TIMEOUT reported for the request r1 and the handler h1 publishes
    once, with the status code 504. *)
Lemma publish_follows_status_table_witness :
  exists payload,
    publishes (trace (update_run
                 (sample_services stored_alone (Ok parent_on_webhook) (Ok tt))
                 sample_principal
                 (sample_report FlowRunStatus.TIMEOUT (Some "h1") (Some "r1")) tt))
    = [("r1", "h1", payload)]
    /\ resp_status payload = 504.
Proof.
  destruct (publish_follows_status_table
              (sample_services stored_alone (Ok parent_on_webhook) (Ok tt))
              sample_principal
              (sample_report FlowRunStatus.TIMEOUT (Some "h1") (Some "r1")) tt)
    as [Hone _].
  destruct (Hone "r1" "h1" eq_refl eq_refl eq_refl)
    as (payload & Hp & _ & _ & _ & Ht & _).
  exists payload. split; [exact Hp | exact (Ht eq_refl)].
Defined.

(** ** The queue acknowledgment *)

Section Acknowledgment.

Context {World : Type} (svc : Services World).

Lemma append_empty_r (s : string) : s +:+ "" = s.
Proof.
  induction s as [|c s IH]; [done|].
  change (String c (s +:+ "") = String c s). by rewrite IH.
Qed.

Lemma contains_suffix (pre sub : string) : contains (pre +:+ sub) sub.
Proof. exists pre, "". by rewrite append_empty_r. Qed.

(** The serialized string boom is the word between two double quotes. *)
Lemma boom_is_quoted :
  contains ("Internal error reported by engine: "
            +:+ Js.template (Js.stringify (Js.Str "boom"))) "boom".
Proof.
  exists ("Internal error reported by engine: " +:+ Js.dquote), Js.dquote.
  reflexivity.
Qed.

(** C2: once the run is persisted and the run store has returned from
    every call, the queue is acknowledged by the status of the persisted
    run: one COMPLETED acknowledgment for SUCCEEDED, FAILED, TIMEOUT,
    PAUSED, QUOTA_EXCEEDED and MEMORY_LIMIT_EXCEEDED; one FAILED
    acknowledgment whose message contains the serialized error of the
    report for INTERNAL_ERROR; none for QUEUED and RUNNING. *)
Theorem acknowledgment_follows_persisted_status principal body w r :
  let tr := trace (update_run svc principal body w) in
  persisted tr = Some r ->
  thrown_calls of_store tr = [] ->
  match run_status r with
  | FlowRunStatus.SUCCEEDED | FlowRunStatus.FAILED | FlowRunStatus.TIMEOUT
  | FlowRunStatus.PAUSED | FlowRunStatus.QUOTA_EXCEEDED
  | FlowRunStatus.MEMORY_LIMIT_EXCEEDED =>
      exists p, acks tr = [p] /\ uj_jobId p = run_id r /\
                uj_status p = JobStatus.COMPLETED
  | FlowRunStatus.INTERNAL_ERROR =>
      exists p, acks tr = [p] /\ uj_jobId p = run_id r /\
                uj_status p = JobStatus.FAILED /\
                contains (uj_message p)
                  (Js.template (Js.stringify (rd_error (runDetails body)))) /\
                (rd_error (runDetails body) = Js.Str "boom" ->
                 contains (uj_message p) "boom")
  | FlowRunStatus.QUEUED | FlowRunStatus.RUNNING => acks tr = []
  end.
Proof.
  intros tr. subst tr.
  destruct (update_run_Run svc principal body w); step_facts;
    unfold persisted, thrown_calls, acks; skip_steps; invert_steps.
  all: cbn; try done.
  all: intros [= ->] _; destruct (run_status r);
    destruct_and?; simplify_eq; cbn; try done.
  all: try (eexists; repeat split; done).
  all: eexists; repeat split; try done; cbn [uj_message].
  all: try apply contains_suffix.
  all: intros ->; apply boom_is_quoted.
Qed.

End Acknowledgment.

(** An INTERNAL_ERROR with the error boom and no waiting caller is
    acknowledged as FAILED, with boom in the message. *)
Lemma acknowledgment_follows_persisted_status_witness :
  exists p,
    acks (trace (update_run
                   (sample_services stored_alone (Ok parent_on_webhook) (Ok tt))
                   sample_principal report_boom tt)) = [p]
    /\ uj_status p = JobStatus.FAILED
    /\ contains (uj_message p) "boom".
Proof.
  pose proof (acknowledgment_follows_persisted_status
                (sample_services stored_alone (Ok parent_on_webhook) (Ok tt))
                sample_principal report_boom tt
                (stored_alone (update_run_params sample_principal report_boom))
                eq_refl eq_refl) as (p & Hp & _ & Hs & _ & Hb).
  exists p. split; [exact Hp|]. split; [exact Hs|]. exact (Hb eq_refl).
Defined.

(** ** The cascade to the parent run *)

Section Cascade.

Context {World : Type} (svc : Services World).

(** Every execution of the notifier is one of its runs. *)
Lemma markParentRunAsFailed_CascadeRun params w :
  CascadeRun svc params w
    (outcome (markParentRunAsFailed svc params w))
    (world_of (markParentRunAsFailed svc params w))
    (trace (markParentRunAsFailed svc params w)).
Proof.
  unfold markParentRunAsFailed, bind, await, tell, lift, assertNotNullOrUndefined.
  destruct (flowRunService_getOneOrThrow _ _ _ _) as [[parent|?] ?] eqn:E1;
    cbn [app outcome world_of trace fst snd];
    [|by apply parent_not_loaded].
  destruct (Js.isNil (webhook_requestId parent)) eqn:E2;
    cbn [app outcome world_of trace fst snd];
    [by apply parent_without_request|].
  fold (callback_path (mp_parentRunId params) (webhook_requestId parent)).
  fold (child_run_path (mp_projectId params) (mp_childRunId params)).
  destruct (domainHelper_getPublicApiUrl _ _ _ _) as [[callbackUrl|?] ?] eqn:E3;
    cbn [app outcome world_of trace fst snd];
    [|by eapply callback_not_resolved].
  destruct (domainHelper_getPublicUrl _ _ _ _) as [[childRunUrl|?] ?] eqn:E4;
    cbn [app outcome world_of trace fst snd];
    [|by eapply link_not_resolved].
  fold (callback_body childRunUrl).
  destruct (apAxios_post _ _ _ _) as [out ?] eqn:E5;
    cbn [app outcome world_of trace fst snd].
  by eapply notification_posted.
Qed.

Lemma webhook_requestId_found parent requestId :
  webhook_request_of parent requestId ->
  webhook_requestId parent = requestId /\ Js.isNil (webhook_requestId parent) = false.
Proof.
  intros (pm & Hpm & Ht & Hr & Hn). unfold webhook_requestId.
  rewrite Hpm, Ht, Hr. by cbn.
Qed.

Lemma webhook_requestId_missing parent :
  ~ (exists requestId, webhook_request_of parent requestId) ->
  Js.isNil (webhook_requestId parent) = true.
Proof.
  intros Hno. unfold webhook_requestId.
  destruct (run_pauseMetadata parent) as [pm|] eqn:Hpm; [|done].
  destruct (pm !! "type") as [[| | | |s| |]|] eqn:Ht; cbn; try done.
  destruct (String.eqb s "WEBHOOK") eqn:Es; [|done].
  apply String.eqb_eq in Es as ->.
  destruct (pm !! "requestId") as [v|] eqn:Hr; cbn; [|done].
  destruct (Js.isNil v) eqn:Hv; [done|].
  exfalso. apply Hno. exists v, pm. done.
Qed.

(** C7: when the parent run that the cascade loads is not paused on a
    webhook or carries no request id, the cascade throws, sends no
    notification and makes no call after the load, so that the parent run
    stays as it was; otherwise it posts the body
    {status: error, data: {message, link}} to the callback address resolved
    for the platform, the parent run and the request id. *)
Theorem cascade_needs_webhook_request_of_parent params w parent w1 :
  flowRunService_getOneOrThrow svc (mp_parentRunId params)
    (mp_projectId params) w = (Ok parent, w1) ->
  let x := markParentRunAsFailed svc params w in
  (~ (exists requestId, webhook_request_of parent requestId) ->
   outcome x = Err (NullOrUndefined "Parent run has no request id")
   /\ trace x = [Cascade params;
                 GetOne (mp_parentRunId params) (mp_projectId params) (Ok parent)]
   /\ posts (trace x) = []
   /\ world_of x = w1)
  /\ (forall requestId callbackUrl w2 childRunUrl w3,
        webhook_request_of parent requestId ->
        domainHelper_getPublicApiUrl svc
          ("/v1/flow-runs/" +:+ mp_parentRunId params +:+ "/requests/"
           +:+ Js.to_string requestId)
          (mp_platformId params) w1 = (Ok callbackUrl, w2) ->
        domainHelper_getPublicUrl svc
          ("/projects/" +:+ mp_projectId params +:+ "/runs/"
           +:+ mp_childRunId params)
          (mp_platformId params) w2 = (Ok childRunUrl, w3) ->
        posts (trace x) =
          [(callbackUrl,
            {| cb_status := "error";
               cb_data := {| cb_message := "Subflow execution failed";
                             cb_link := childRunUrl |} |},
            outcome x)]).
Proof.
  intros Hload x. subst x. split.
  - intros Hno%webhook_requestId_missing.
    destruct (markParentRunAsFailed_CascadeRun params w); same_calls; done.
  - intros requestId callbackUrl w2 childRunUrl w3
      [Hid Hnn]%webhook_requestId_found Hcb Hlink.
    fold (callback_path (mp_parentRunId params) requestId) in Hcb.
    fold (child_run_path (mp_projectId params) (mp_childRunId params)) in Hlink.
    destruct (markParentRunAsFailed_CascadeRun params w); same_calls; done.
Qed.





End Cascade.


(** ** The order of the publish and of the store update *)

Section Order.

Context {World : Type} (svc : Services World).

Lemma later_steps (s : Step) (t : list Event) :
  s <> Respond -> s <> Persist ->
  Forall (fun e => step_of e = s) t -> Forall later_step t.
Proof.
  intros H1 H2 H. eapply Forall_impl; [exact H|]. intros e <-. by split.
Qed.

(** The shape of the trace when a response is owed. *)
Lemma owed_trace_shape principal body w h r :
  FlowRunStatus.includes nonSupportedStatuses (rd_status (runDetails body)) = false ->
  workerHandlerId body = Some h -> httpRequestId body = Some r ->
  let tr := trace (update_run svc principal body w) in
  tr = []
  \/ (exists payload e, tr = [Publish r h payload (Err e)])
  \/ (exists payload p out rest,
        tr = Publish r h payload (Ok tt) :: UpdateRun p out :: rest
        /\ Forall later_step rest).
Proof.
  intros Hn Hh Hr tr. subst tr.
  destruct (update_run_Run svc principal body w) as
    [ ? ? ? E1 | ? ? ? ? ? ? E1 | ? ? ? ? ? ? ? ? ? E1
    | ? ? ? ? ? ? ? ? ? ? ? ? E1 | ? ? ? ? ? ? ? ? ? ? ? ? ? ? ? E1
    | ? ? ? ? ? ? ? ? ? ? ? ? ? ? ? ? ? ? E1
    | ? ? ? ? ? ? ? ? ? ? ? ? ? ? ? ? ? ? E1 ];
    step_facts; invert_steps;
    rewrite (respond_owed svc body w h r Hn Hh Hr) in E1;
    destruct (getFlowResponse (runDetails body)) as [payload|];
    simplify_eq; auto.
  all: try match goal with
       | E : fst ?c = _ |- _ => rewrite E
       end.
  all: try (right; left; by eauto).
  all: destruct u1; right; right; do 4 eexists; (split; [reflexivity|]).
  all: repeat (apply Forall_app; split); try (by constructor).
  all: try (eapply later_steps; [| |eassumption]; done).
Qed.

(** C4: when a synchronous response is owed (status outside {RUNNING,
    SUCCEEDED, PAUSED}, both identifiers present), every update of the run
    store comes after a publish under (httpRequestId, workerHandlerId) that
    has returned, and no publish comes after an update of the run store. *)
Theorem publish_precedes_store_update principal body w h r :
  FlowRunStatus.includes
    [FlowRunStatus.RUNNING; FlowRunStatus.SUCCEEDED; FlowRunStatus.PAUSED]
    (rd_status (runDetails body)) = false ->
  workerHandlerId body = Some h ->
  httpRequestId body = Some r ->
  let tr := trace (update_run svc principal body w) in
  (forall i p out,
      tr !! i = Some (UpdateRun p out) ->
      exists j payload,
        (j < i)%nat /\ tr !! j = Some (Publish r h payload (Ok tt)))
  /\ (forall i j p out r' h' payload out',
        tr !! i = Some (UpdateRun p out) ->
        tr !! j = Some (Publish r' h' payload out') ->
        (j < i)%nat).
Proof.
  intros Hn Hh Hr tr.
  destruct (owed_trace_shape principal body w h r Hn Hh Hr)
    as [E | [(payload & e & E) | (payload & p0 & out0 & rest & E & Hrest)]];
    fold tr in E; rewrite E; clear E.
  - split; intros *; by rewrite lookup_nil.
  - split; intros [|i] *; by cbn.
  - assert (Hlater : forall k e, rest !! k = Some e -> later_step e)
      by (intros k e Hk; by eapply Forall_lookup_1).
    split.
    + intros [|[|i]] p out Hi; cbn in Hi; [done| |].
      * exists 0%nat, payload. split; [lia|done].
      * apply Hlater in Hi as [_ Hi]. by cbn in Hi.
    + intros [|[|i]] [|[|j]] * Hi Hj; cbn in Hi, Hj; try done; try lia.
      * apply Hlater in Hj as [Hj _]. by cbn in Hj.
      * apply Hlater in Hi as [_ Hi]. by cbn in Hi.
Qed.

End Order.

(** A TIMEOUT reported for a waiting caller: the store update, second in the
    trace, comes after the publish that returned. *)
Lemma publish_precedes_store_update_witness :
  exists j payload,
    (j < 1)%nat /\
    trace (update_run
             (sample_services stored_alone (Ok parent_on_webhook) (Ok tt))
             sample_principal
             (sample_report FlowRunStatus.TIMEOUT (Some "h1") (Some "r1")) tt)
    !! j = Some (Publish "r1" "h1" payload (Ok tt)).
Proof.
  pose proof (publish_precedes_store_update
                (sample_services stored_alone (Ok parent_on_webhook) (Ok tt))
                sample_principal
                (sample_report FlowRunStatus.TIMEOUT (Some "h1") (Some "r1")) tt
                "h1" "r1" eq_refl eq_refl eq_refl) as [Hbefore _].
  exact (Hbefore 1%nat _ _ eq_refl).
Defined.

(** A parent paused on a delay: the cascade throws and posts nothing. *)
Lemma cascade_needs_webhook_request_of_parent_witness :
  outcome (markParentRunAsFailed
             (sample_services stored_child (Ok parent_on_delay) (Ok tt))
             (cascade_params sample_principal
                (stored_child (update_run_params sample_principal
                   (sample_report FlowRunStatus.FAILED None None)))
                "parent-1") tt)
  = Err (NullOrUndefined "Parent run has no request id")
  /\ posts (trace (markParentRunAsFailed
                     (sample_services stored_child (Ok parent_on_delay) (Ok tt))
                     (cascade_params sample_principal
                        (stored_child (update_run_params sample_principal
                           (sample_report FlowRunStatus.FAILED None None)))
                        "parent-1") tt))
     = [].
Proof.
  pose proof (cascade_needs_webhook_request_of_parent
                (sample_services stored_child (Ok parent_on_delay) (Ok tt))
                (cascade_params sample_principal
                   (stored_child (update_run_params sample_principal
                      (sample_report FlowRunStatus.FAILED None None)))
                   "parent-1") tt parent_on_delay tt eq_refl) as [Hno _].
  assert (Hdelay : ~ (exists requestId, webhook_request_of parent_on_delay requestId)).
  { intros (requestId & pm & [= <-] & Htype & _). vm_compute in Htype.
    discriminate Htype. }
  destruct (Hno Hdelay) as (Hout & _ & Hposts & _).
  split; [exact Hout | exact Hposts].
Defined.

(** A QUEUED report for a waiting caller throws and leaves an empty trace. *)
Lemma unmapped_status_fails_before_any_call_witness :
  outcome (update_run
             (sample_services stored_alone (Ok parent_on_webhook) (Ok tt))
             sample_principal
             (sample_report FlowRunStatus.QUEUED (Some "h1") (Some "r1")) tt)
  = Err (Error "Unexpected flow run status: QUEUED")
  /\ trace (update_run
              (sample_services stored_alone (Ok parent_on_webhook) (Ok tt))
              sample_principal
              (sample_report FlowRunStatus.QUEUED (Some "h1") (Some "r1")) tt)
     = [].
Proof.
  pose proof (unmapped_status_fails_before_any_call
                (sample_services stored_alone (Ok parent_on_webhook) (Ok tt))
                sample_principal
                (sample_report FlowRunStatus.QUEUED (Some "h1") (Some "r1")) tt
                "h1" "r1" eq_refl eq_refl eq_refl eq_refl)
    as (_ & Hout & Htr & _).
  split; [exact Hout | exact Htr].
Defined.

(** ** Where an error of the handler comes from *)

Section Errors.

Context {World : Type} (svc : Services World).

Lemma thrown_calls_app which (a b : list Event) :
  thrown_calls which (a ++ b) = thrown_calls which a ++ thrown_calls which b.
Proof. apply omap_app. Qed.

Lemma omap_after {X} (f : Event -> option X) (a b : list Event) :
  omap f b <> [] -> omap f (a ++ b) <> [].
Proof.
  rewrite omap_app. intros Hb Hab.
  by apply app_eq_nil in Hab as [_ Hab].
Qed.

Lemma thrown_calls_after which (a b : list Event) :
  thrown_calls which b <> [] -> thrown_calls which (a ++ b) <> [].
Proof. apply omap_after. Qed.

Lemma respond_thrown body w e w1 t :
  respond svc body w = (Err e, w1, t) ->
  (t = [] /\ getFlowResponse (runDetails body) = Err e)
  \/ thrown_calls any_call t <> [].
Proof.
  unfold respond.
  destruct (negb _), (workerHandlerId body), (httpRequestId body);
    try done.
  unfold bind, lift, await.
  destruct (getFlowResponse _); [|intros [= <- <- <-]; by left].
  destruct (engineResponseWatcher_publish _ _ _ _ _) as [[|] ?];
    intros [= <- <- <-]. by right.
Qed.

Lemma persist_thrown principal body w e w1 t :
  persist svc principal body w = (Err e, w1, t) ->
  thrown_calls any_call t <> [].
Proof. by intros ->%persist_inv. Qed.

Lemma logs_or_broadcast_thrown principal body r w e w1 t :
  logs_or_broadcast svc principal body r w = (Err e, w1, t) ->
  thrown_calls any_call t <> [].
Proof. by intros [[_ ->] | (_ & ? & _)]%logs_or_broadcast_inv. Qed.

Lemma pause_if_paused_thrown body w e w1 t :
  pause_if_paused svc body w = (Err e, w1, t) ->
  thrown_calls any_call t <> [].
Proof. by intros [[_ ->] | (_ & ? & _)]%pause_if_paused_inv. Qed.

Lemma markJobAsCompleted_thrown status jobId principal error w e w1 t :
  markJobAsCompleted svc status jobId principal error w = (Err e, w1, t) ->
  thrown_calls any_call t <> [].
Proof.
  intros H%markJobAsCompleted_inv.
  destruct status; destruct_and?; by simplify_eq.
Qed.

Lemma cascade_if_needed_thrown principal r w e w1 t :
  cascade_if_needed svc principal r w = (Err e, w1, t) ->
  thrown_calls any_call t <> []
  \/ (e = NullOrUndefined "Parent run has no request id" /\ cascades t <> []).
Proof.
  intros [[_ (q & _ & E)] | (_ & ? & _)]%cascade_if_needed_inv; [|done].
  pose proof (markParentRunAsFailed_CascadeRun svc
                (cascade_params principal r q) w) as HC.
  rewrite E in HC. cbn [outcome world_of trace fst snd] in HC.
  inversion HC; subst; auto.
Qed.

(** The handler itself throws in two places: [getFlowResponse], before any
    call, and the assertion of the cascade; every other error is the
    rejection of a call. *)
Lemma update_run_error_source principal body w e :
  outcome (update_run svc principal body w) = Err e ->
  (trace (update_run svc principal body w) = []
   /\ getFlowResponse (runDetails body) = Err e)
  \/ thrown_calls any_call (trace (update_run svc principal body w)) <> []
  \/ (e = NullOrUndefined "Parent run has no request id"
      /\ cascades (trace (update_run svc principal body w)) <> []).
Proof.
  destruct (update_run_Run svc principal body w) as
    [ ? ? ? E1 | ? ? ? ? ? ? E1 E2 | ? ? ? ? ? ? ? ? ? E1 E2 E3
    | ? ? ? ? ? ? ? ? ? ? ? ? E1 E2 E3 E4
    | ? ? ? ? ? ? ? ? ? ? ? ? ? ? ? E1 E2 E3 E4 E5
    | ? ? ? ? ? ? ? ? ? ? ? ? ? ? ? ? ? ? E1 E2 E3 E4 E5 E6
    | ? ? ? ? ? ? ? ? ? ? ? ? ? ? ? ? ? ? E1 E2 E3 E4 E5 E6 ];
    intros [= <-].
  - apply respond_thrown in E1 as [[-> ?] | ?]; auto.
  - right; left. by eapply thrown_calls_after, persist_thrown.
  - right; left.
    by eapply thrown_calls_after, thrown_calls_after, logs_or_broadcast_thrown.
  - right; left.
    by eapply thrown_calls_after, thrown_calls_after, thrown_calls_after,
      pause_if_paused_thrown.
  - right; left.
    by eapply thrown_calls_after, thrown_calls_after, thrown_calls_after,
      thrown_calls_after, markJobAsCompleted_thrown.
  - right. apply cascade_if_needed_thrown in E6 as [? | [? ?]]; [left|right].
    + by do 5 apply thrown_calls_after.
    + split; [done|]. by do 5 apply omap_after.
Qed.

(** C5, as the code has it: a report in the status RUNNING, SUCCEEDED or
    PAUSED, with or without an httpRequestId, is not rejected.  The handler
    publishes nothing and goes on to the run store, whose update is its
    first call; it ends in an error only when a call to a service throws or
    when the cascade finds no webhook request on the parent run. *)
Theorem excluded_status_is_not_rejected principal body w :
  FlowRunStatus.includes
    [FlowRunStatus.RUNNING; FlowRunStatus.SUCCEEDED; FlowRunStatus.PAUSED]
    (rd_status (runDetails body)) = true ->
  let x := update_run svc principal body w in
  publishes (trace x) = []
  /\ (exists p out rest,
        trace x = UpdateRun p out :: rest
        /\ ur_flowRunId p = runId body
        /\ ur_status p = rd_status (runDetails body))
  /\ (forall e,
        outcome x = Err e ->
        thrown_calls any_call (trace x) <> []
        \/ e = NullOrUndefined "Parent run has no request id").
Proof.
  intros Hs x. subst x.
  pose proof (respond_not_owed svc body w (or_introl Hs)) as Hr.
  assert (Hfirst : exists p out rest,
             trace (update_run svc principal body w) = UpdateRun p out :: rest
             /\ ur_flowRunId p = runId body
             /\ ur_status p = rd_status (runDetails body)).
  { destruct (update_run_Run svc principal body w) as
      [ ? ? ? E1 | ? ? ? ? ? ? E1 E2 | ? ? ? ? ? ? ? ? ? E1 E2 E3
      | ? ? ? ? ? ? ? ? ? ? ? ? E1 E2 E3 E4
      | ? ? ? ? ? ? ? ? ? ? ? ? ? ? ? E1 E2 E3 E4 E5
      | ? ? ? ? ? ? ? ? ? ? ? ? ? ? ? ? ? ? E1 E2 E3 E4 E5 E6
      | ? ? ? ? ? ? ? ? ? ? ? ? ? ? ? ? ? ? E1 E2 E3 E4 E5 E6 ];
      rewrite Hr in E1; simplify_eq;
      apply persist_inv in E2 as ->; cbn [app]; by do 3 eexists. }
  split; [|split; [exact Hfirst|]].
  - rewrite publishes_update_run. by rewrite Hr.
  - intros e He.
    destruct (update_run_error_source principal body w e He)
      as [[Hnil _] | [H | [H _]]]; [|by left|by right].
    destruct Hfirst as (? & ? & ? & Hcons & _). by rewrite Hnil in Hcons.
Qed.

End Errors.

(** A SUCCEEDED report that carries an httpRequestId is accepted: the
    handler returns, without an error. *)
Lemma excluded_status_is_not_rejected_counterexample :
  httpRequestId (sample_report FlowRunStatus.SUCCEEDED (Some "h1") (Some "r1"))
  = Some "r1"
  /\ outcome (update_run
                (sample_services stored_alone (Ok parent_on_webhook) (Ok tt))
                sample_principal
                (sample_report FlowRunStatus.SUCCEEDED (Some "h1") (Some "r1")) tt)
     = Ok {| uploadUrl := None |}.
Proof. split; reflexivity. Qed.

Lemma excluded_status_is_not_rejected_witness :
  publishes (trace (update_run
                      (sample_services stored_alone (Ok parent_on_webhook) (Ok tt))
                      sample_principal
                      (sample_report FlowRunStatus.SUCCEEDED (Some "h1") (Some "r1"))
                      tt))
  = [].
Proof.
  pose proof (excluded_status_is_not_rejected
                (sample_services stored_alone (Ok parent_on_webhook) (Ok tt))
                sample_principal
                (sample_report FlowRunStatus.SUCCEEDED (Some "h1") (Some "r1")) tt
                eq_refl) as [Hnone _].
  exact Hnone.
Defined.

(** ** A failed delivery of the parent notification *)

Section Delivery.

Context {World : Type} (svc : Services World).

(** A failed post is the last call of the cascade and its outcome. *)
Lemma cascade_if_needed_failed_post principal r w o w1 t url b e :
  cascade_if_needed svc principal r w = (o, w1, t) ->
  In (url, b, Err e) (posts t) ->
  o = Err e
  /\ exists t', t = t' ++ [Post url b (Err e)]
              /\ Forall (fun e => step_of e = CascadeToParent) t'
              /\ posts t' = [].
Proof.
  intros [[_ (q & _ & E)] | (_ & _ & ->)]%cascade_if_needed_inv; [|done].
  pose proof (markParentRunAsFailed_CascadeRun svc
                (cascade_params principal r q) w) as HC.
  rewrite E in HC. cbn [outcome world_of trace fst snd] in HC.
  inversion HC; subst; cbn; try tauto.
  intros [[= -> -> ->] | []]. split; [done|].
  eexists [_; _; _; _]. split; [reflexivity|]. split; [|done].
  by repeat constructor.
Qed.

(** C6, as the code has it: when the delivery of the parent notification
    fails, the handler does not post again and makes no call after the
    failed post, so that the persisted run and the queue acknowledgment
    stay as they are; but the failure is the outcome of [update_run]. *)
Theorem failed_delivery_fails_update_run principal body w url b e :
  let x := update_run svc principal body w in
  In (url, b, Err e) (posts (trace x)) ->
  outcome x = Err e
  /\ posts (trace x) = [(url, b, Err e)]
  /\ exists before r,
       trace x = before ++ [Post url b (Err e)]
       /\ persisted before = Some r
       /\ acks before = acks (trace x).
Proof.
  intros x. subst x.
  destruct (update_run_Run svc principal body w) as
    [ ? ? ? E1 | ? ? ? ? ? ? E1 E2 | ? ? ? ? ? ? ? ? ? E1 E2 E3
    | ? ? ? ? ? ? ? ? ? ? ? ? E1 E2 E3 E4
    | ? ? ? ? ? ? ? ? ? ? ? ? ? ? ? E1 E2 E3 E4 E5
    | ? ? ? ? ? ? ? ? ? ? ? ? ? ? ? ? ? ? E1 E2 E3 E4 E5 E6
    | ? ? ? ? ? ? ? ? ? ? ? ? ? ? ? ? ? ? E1 E2 E3 E4 E5 E6 ];
    step_facts; unfold posts at 1; skip_steps; try done.
  all: intros Hin;
    destruct (cascade_if_needed_failed_post _ _ _ _ _ _ _ _ _ E6 Hin)
      as (Ho & t' & -> & St' & Hp'); simplify_eq.
  split; [done|]. split.
  - unfold posts in *. skip_steps. by rewrite Hp'.
  - exists (t1 ++ t2 ++ t3 ++ t4 ++ t5 ++ t'), r.
    split; [by rewrite !app_assoc|].
    apply persist_inv in E2 as ->.
    unfold persisted, acks. by skip_steps.
Qed.

End Delivery.

(** The delivery times out, and the update of a FAILED child run ends with
    that error. *)
Lemma failed_delivery_fails_update_run_counterexample :
  posts (trace (update_run
                  (sample_services stored_child (Ok parent_on_webhook)
                     (Err (Rejected "ETIMEDOUT")))
                  sample_principal
                  (sample_report FlowRunStatus.FAILED None None) tt))
  = [("https://api/v1/flow-runs/parent-1/requests/req-7",
      callback_body "https://app/projects/project-1/runs/run-1",
      Err (Rejected "ETIMEDOUT"))]
  /\ outcome (update_run
                (sample_services stored_child (Ok parent_on_webhook)
                   (Err (Rejected "ETIMEDOUT")))
                sample_principal
                (sample_report FlowRunStatus.FAILED None None) tt)
     = Err (Rejected "ETIMEDOUT").
Proof. split; reflexivity. Qed.

Lemma failed_delivery_fails_update_run_witness :
  outcome (update_run
             (sample_services stored_child (Ok parent_on_webhook)
                (Err (Rejected "ETIMEDOUT")))
             sample_principal
             (sample_report FlowRunStatus.FAILED None None) tt)
  = Err (Rejected "ETIMEDOUT").
Proof.
  refine (proj1 (failed_delivery_fails_update_run
                   (sample_services stored_child (Ok parent_on_webhook)
                      (Err (Rejected "ETIMEDOUT")))
                   sample_principal
                   (sample_report FlowRunStatus.FAILED None None) tt
                   "https://api/v1/flow-runs/parent-1/requests/req-7"
                   (callback_body "https://app/projects/project-1/runs/run-1")
                   (Rejected "ETIMEDOUT") _)).
  left. reflexivity.
Defined.

(** ** Pause metadata, log upload and progress broadcast *)

Section Progress.

Context {World : Type} (svc : Services World).

(** C8: for a PAUSED report, the pause metadata handed to the run store is
    the merge of {progressUpdateType, handlerId: workerHandlerId} with the
    pauseMetadata of the report, whose fields win; it is handed over once
    when the run is persisted and the log upload, if any, returned. *)
Theorem paused_run_merges_pause_metadata principal body w :
  rd_status (runDetails body) = FlowRunStatus.PAUSED ->
  let tr := trace (update_run svc principal body w) in
  let base : Js.Obj :=
    {[ "progressUpdateType" :=
         ProgressUpdateType.to_value
           (default ProgressUpdateType.NONE (progressUpdateType body));
       "handlerId" := from_option Js.Str Js.Undefined (workerHandlerId body) ]} in
  let supplied : Js.Obj := default ∅ (rd_pauseMetadata (runDetails body)) in
  (forall id pm,
      In (id, pm) (pauses tr) ->
      id = runId body
      /\ forall k, pm !! k = match supplied !! k with
                             | Some v => Some v
                             | None => base !! k
                             end)
  /\ (forall r,
        persisted tr = Some r ->
        thrown_calls of_logs tr = [] ->
        exists pm, pauses tr = [(runId body, pm)]).
Proof.
  intros Hs tr base supplied. subst tr.
  assert (Hmerge : forall k,
             report_pause_metadata body !! k
             = match supplied !! k with
               | Some v => Some v
               | None => base !! k
               end).
  { intros k. unfold report_pause_metadata, pause_metadata.
    rewrite lookup_union. fold supplied. fold base.
    by destruct (supplied !! k), (base !! k). }
  destruct (update_run_Run svc principal body w); step_facts;
    unfold persisted, thrown_calls, pauses; skip_steps; invert_steps;
    cbn; try done.
  all: split; [intros id pm [[= <- <-] | []]; by split | try by eauto].
  all: intros ? [= ->]; try done; eauto.
Qed.

(** C9: once the run is persisted, the handler does one of two things.
    When executionStateContentLength is present and positive it requests a
    log-upload target, passing the logsFileId of the persisted run, makes no
    progress broadcast, and the uploadUrl it returns is the one of the
    target; otherwise it broadcasts the progress of the run to the project
    and the uploadUrl it returns is undefined.  It returns when every call
    returned and no cascade was invoked. *)
Theorem log_upload_or_progress_broadcast principal body w r :
  let x := update_run svc principal body w in
  persisted (trace x) = Some r ->
  (forall n,
      executionStateContentLength body = Some n -> 0 < n ->
      exists out,
        uploads (trace x) =
          [({| ul_flowRunId := runId body;
               ul_logsFileId := run_logsFileId r;
               ul_projectId := principal_projectId principal;
               ul_executionStateString := executionStateBuffer body;
               ul_executionStateContentLength := Some n |}, out)]
        /\ broadcasts (trace x) = []
        /\ (forall response, outcome x = Ok response ->
                             out = Ok (uploadUrl response)))
  /\ (executionStateContentLength body = None
      \/ (exists n, executionStateContentLength body = Some n /\ n <= 0) ->
      uploads (trace x) = []
      /\ broadcasts (trace x) =
           [(principal_projectId principal,
             WebsocketClientEvent.FLOW_RUN_PROGRESS, runId body)]
      /\ (forall response, outcome x = Ok response ->
                           uploadUrl response = None))
  /\ (thrown_calls any_call (trace x) = [] -> cascades (trace x) = [] ->
      exists response, outcome x = Ok response).
Proof.
  intros x Hp. subst x. split; [|split].
  - intros n Hn Hpos.
    assert (Hl : updateLogs body = true)
      by (unfold updateLogs; rewrite Hn; by apply Z.ltb_lt).
    revert Hp.
    destruct (update_run_Run svc principal body w); step_facts;
      unfold persisted, uploads, broadcasts; skip_steps; invert_steps;
      cbn; try done; try congruence.
    all: intros [= ->]; unfold update_logs_params; rewrite Hn;
      eexists; split; [reflexivity|]; split; [done|]; try done.
    all: by intros ? [= <-].
  - intros Hn.
    assert (Hl : updateLogs body = false).
    { unfold updateLogs. destruct Hn as [-> | (n & -> & Hn)]; [done|].
      by apply Z.ltb_ge. }
    revert Hp.
    destruct (update_run_Run svc principal body w); step_facts;
      unfold persisted, uploads, broadcasts; skip_steps; invert_steps;
      cbn; try done; try congruence.
    all: intros _; repeat split; try done.
    all: intros ? [= <-]; by simplify_eq.
  - intros Ht Hc.
    destruct (outcome (update_run svc principal body w)) as [response|e] eqn:He;
      [by eexists|].
    destruct (update_run_error_source svc principal body w e He)
      as [[Hnil _] | [H | [_ H]]]; try done.
    by rewrite Hnil in Hp.
Qed.

End Progress.

(** The report of the handler h2, paused with the request id r9, persists
    pause metadata that hold both. *)
Lemma paused_run_merges_pause_metadata_witness :
  exists pm,
    pauses (trace (update_run
                     (sample_services stored_alone (Ok parent_on_webhook) (Ok tt))
                     sample_principal report_paused tt))
    = [("run-1", pm)]
    /\ pm !! "handlerId" = Some (Js.Str "h2")
    /\ pm !! "requestId" = Some (Js.Str "r9").
Proof.
  pose proof (paused_run_merges_pause_metadata
                (sample_services stored_alone (Ok parent_on_webhook) (Ok tt))
                sample_principal report_paused tt eq_refl) as [Hmerge Honce].
  destruct (Honce _ eq_refl eq_refl) as [pm Hpm].
  exists pm. split; [exact Hpm|].
  destruct (Hmerge "run-1" pm) as [_ Hk].
  { rewrite Hpm. left. reflexivity. }
  split; [exact (Hk "handlerId") | exact (Hk "requestId")].
Defined.

(** A report that announces 512 bytes of state gets the upload address of
    the run store back. *)
Lemma log_upload_or_progress_broadcast_witness :
  broadcasts (trace (update_run
                       (sample_services stored_alone (Ok parent_on_webhook) (Ok tt))
                       sample_principal report_with_logs tt))
  = []
  /\ exists response,
       outcome (update_run
                  (sample_services stored_alone (Ok parent_on_webhook) (Ok tt))
                  sample_principal report_with_logs tt)
       = Ok response.
Proof.
  pose proof (log_upload_or_progress_broadcast
                (sample_services stored_alone (Ok parent_on_webhook) (Ok tt))
                sample_principal report_with_logs tt
                (stored_alone (update_run_params sample_principal report_with_logs))
                eq_refl) as (Hup & _ & Hret).
  destruct (Hup 512 eq_refl eq_refl) as (out & _ & Hnone & _).
  split; [exact Hnone | exact (Hret eq_refl eq_refl)].
Defined.

(** ** The handler stops at the first call that throws *)

Section FailStop.

Context {World : Type} (svc : Services World).

Lemma stops_at_nil oe : stops_at oe [].
Proof. by intros ev []. Qed.

Lemma stops_at_one oe ev :
  (returned ev = false -> error_of ev = oe) -> stops_at oe [ev].
Proof. intros H ev' [<- | []] Hr. split; [done | by apply H]. Qed.

Lemma stops_at_app oe (t1 t2 : list Event) :
  (forall ev, In ev t1 -> returned ev = true) ->
  stops_at oe t2 -> stops_at oe (t1 ++ t2).
Proof.
  intros H1 H2 ev Hin Hr. apply in_app_or in Hin as [Hin | Hin].
  - apply H1 in Hin. congruence.
  - destruct (H2 ev Hin Hr) as [Hl He]. split; [|done].
    rewrite last_app. by rewrite Hl.
Qed.

Lemma thrown_has_error ev : returned ev = false -> error_of ev <> None.
Proof. by destruct ev as [| ? ? ? []| ? []| ? []| | ? ? []| ? []| ? ? []| ? ? []| ? ? []| ? ? []]. Qed.

(** A step that returned made only calls that returned. *)
Lemma all_returned (t : list Event) :
  stops_at None t -> forall ev, In ev t -> returned ev = true.
Proof.
  intros H ev Hin. destruct (returned ev) eqn:Hr; [done|].
  destruct (H ev Hin Hr) as [_ He]. by apply thrown_has_error in Hr.
Qed.

Lemma all_returned_thrown_calls which (t : list Event) :
  (forall ev, In ev t -> returned ev = true) -> thrown_calls which t = [].
Proof.
  induction t as [|ev t IH]; [done|]. intros H. unfold thrown_calls. cbn.
  rewrite (H ev (or_introl eq_refl)), andb_false_r.
  apply IH. intros ev' Hin. apply H. by right.
Qed.

Lemma respond_stops body w o w1 t :
  respond svc body w = (o, w1, t) -> stops_at (thrown_by o) t.
Proof.
  unfold respond.
  destruct (negb _), (workerHandlerId body), (httpRequestId body);
    try (intros [= <- <- <-]; apply stops_at_nil).
  unfold bind, lift, await.
  destruct (getFlowResponse _); [|intros [= <- <- <-]; apply stops_at_nil].
  destruct (engineResponseWatcher_publish _ _ _ _ _) as [[|] ?];
    intros [= <- <- <-]; by apply stops_at_one.
Qed.

Lemma persist_stops principal body w o w1 t :
  persist svc principal body w = (o, w1, t) -> stops_at (thrown_by o) t.
Proof. intros ->%persist_inv. apply stops_at_one. by destruct o. Qed.

Lemma logs_or_broadcast_stops principal body r w o w1 t :
  logs_or_broadcast svc principal body r w = (o, w1, t) ->
  stops_at (thrown_by o) t.
Proof.
  intros [[_ ->] | (_ & -> & ->)]%logs_or_broadcast_inv;
    apply stops_at_one; [by destruct o | done].
Qed.

Lemma pause_if_paused_stops body w o w1 t :
  pause_if_paused svc body w = (o, w1, t) -> stops_at (thrown_by o) t.
Proof.
  intros [[_ ->] | (_ & -> & ->)]%pause_if_paused_inv;
    [apply stops_at_one; by destruct o | apply stops_at_nil].
Qed.

Lemma markJobAsCompleted_stops status jobId principal error w o w1 t :
  markJobAsCompleted svc status jobId principal error w = (o, w1, t) ->
  stops_at (thrown_by o) t.
Proof.
  intros H%markJobAsCompleted_inv.
  destruct status; destruct_and?; subst;
    try apply stops_at_nil; apply stops_at_one; by destruct o.
Qed.

Lemma cascade_if_needed_stops principal r w o w1 t :
  cascade_if_needed svc principal r w = (o, w1, t) -> stops_at (thrown_by o) t.
Proof.
  intros [[_ (q & _ & E)] | (_ & -> & ->)]%cascade_if_needed_inv;
    [|apply stops_at_nil].
  pose proof (markParentRunAsFailed_CascadeRun svc
                (cascade_params principal r q) w) as HC.
  rewrite E in HC. cbn [outcome world_of trace fst snd] in HC.
  inversion HC; subst; intros ev Hin Hr; cbn in Hin;
    repeat (destruct Hin as [<- | Hin]; [try discriminate Hr|]);
    done.
Qed.

(** What the handler throws is what its last call threw. *)
Lemma update_run_stops principal body w :
  stops_at (thrown_by (outcome (update_run svc principal body w)))
    (trace (update_run svc principal body w)).
Proof.
  destruct (update_run_Run svc principal body w) as
    [ ? ? ? E1 | ? ? ? ? ? ? E1 E2 | ? ? ? ? ? ? ? ? ? E1 E2 E3
    | ? ? ? ? ? ? ? ? ? ? ? ? E1 E2 E3 E4
    | ? ? ? ? ? ? ? ? ? ? ? ? ? ? ? E1 E2 E3 E4 E5
    | ? ? ? ? ? ? ? ? ? ? ? ? ? ? ? ? ? ? E1 E2 E3 E4 E5 E6
    | ? ? ? ? ? ? ? ? ? ? ? ? ? ? ? ? ? ? E1 E2 E3 E4 E5 E6 ];
    apply respond_stops in E1;
    try apply persist_stops in E2;
    try apply logs_or_broadcast_stops in E3;
    try apply pause_if_paused_stops in E4;
    try apply markJobAsCompleted_stops in E5;
    try apply cascade_if_needed_stops in E6;
    cbn [thrown_by] in *;
    repeat (apply stops_at_app; [by apply all_returned|]);
    done.
Qed.

(** X3: a call that throws is the last call of the handler, and the handler
    throws what the call threw: no error of a service is swallowed, and
    nothing is called after one. *)
Theorem thrown_call_ends_update_run principal body w ev :
  let x := update_run svc principal body w in
  In ev (trace x) ->
  returned ev = false ->
  last (trace x) = Some ev
  /\ exists e, error_of ev = Some e /\ outcome x = Err e.
Proof.
  intros x Hin Hr. subst x.
  destruct (update_run_stops principal body w ev Hin Hr) as [Hl He].
  split; [done|].
  destruct (outcome (update_run svc principal body w)) as [?|e];
    cbn [thrown_by] in He; [by apply thrown_has_error in Hr|].
  by exists e.
Qed.

End FailStop.

(** The run store is down: its update is the only call of the handler. *)
Lemma thrown_call_ends_update_run_witness :
  last (trace (update_run store_down sample_principal
                 (sample_report FlowRunStatus.SUCCEEDED None None) tt))
  = Some (UpdateRun (update_run_params sample_principal
                       (sample_report FlowRunStatus.SUCCEEDED None None))
            (Err (Rejected "ECONNREFUSED")))
  /\ outcome (update_run store_down sample_principal
                (sample_report FlowRunStatus.SUCCEEDED None None) tt)
     = Err (Rejected "ECONNREFUSED").
Proof.
  destruct (thrown_call_ends_update_run store_down sample_principal
              (sample_report FlowRunStatus.SUCCEEDED None None) tt
              (UpdateRun (update_run_params sample_principal
                            (sample_report FlowRunStatus.SUCCEEDED None None))
                 (Err (Rejected "ECONNREFUSED")))
              (or_introl eq_refl) eq_refl) as (Hl & e & He & Ho).
  split; [exact Hl|]. injection He as <-. exact Ho.
Defined.

(** ** The calls of one request: order and number *)

Section Calls.

Context {World : Type} (svc : Services World).

Lemma respond_inv body w o w1 t :
  respond svc body w = (o, w1, t) ->
  t = []
  \/ exists h r payload,
       workerHandlerId body = Some h /\ httpRequestId body = Some r
       /\ getFlowResponse (runDetails body) = Ok payload
       /\ t = [Publish r h payload o].
Proof.
  unfold respond.
  destruct (negb _), (workerHandlerId body) as [h|], (httpRequestId body) as [r|];
    try (intros [= <- <- <-]; by left).
  unfold bind, lift, await.
  destruct (getFlowResponse _) as [payload|]; [|intros [= <- <- <-]; by left].
  destruct (engineResponseWatcher_publish _ _ _ _ _) as [? ?].
  intros [= <- <- <-]. right. by exists h, r, payload.
Qed.

(** The events of one step are in order, and so is a step followed by
    later steps. *)
Lemma ordered_last (k : nat) (s : Step) (t : list Event) :
  Forall (fun e => step_of e = s) t ->
  (k <= step_rank s)%nat ->
  StronglySorted in_handler_order t
  /\ Forall (fun e => (k <= step_rank (step_of e))%nat) t.
Proof.
  intros Ht Hk. induction Ht as [|e t He Ht [IH1 IH2]].
  - split; constructor.
  - split; constructor; try done.
    + eapply Forall_impl; [exact Ht|]. intros e' He'.
      unfold in_handler_order. rewrite He, He'. lia.
    + by rewrite He.
Qed.

Lemma ordered_block (k : nat) (s : Step) (t rest : list Event) :
  Forall (fun e => step_of e = s) t ->
  (k <= step_rank s)%nat ->
  StronglySorted in_handler_order rest
  /\ Forall (fun e => (step_rank s <= step_rank (step_of e))%nat) rest ->
  StronglySorted in_handler_order (t ++ rest)
  /\ Forall (fun e => (k <= step_rank (step_of e))%nat) (t ++ rest).
Proof.
  intros Ht Hk [Hs Hr].
  destruct (ordered_last k s t Ht Hk) as [Hst Hkt]. split.
  - apply StronglySorted_app_2; [|done..].
    intros x1 x2 Hx1 Hx2. unfold in_handler_order.
    rewrite Forall_forall in Ht, Hr.
    rewrite (Ht x1 Hx1). by apply Hr.
  - apply Forall_app. split; [done|].
    eapply Forall_impl; [exact Hr|]. intros e He. cbn in He. lia.
Qed.

(** X1: the calls of the handler follow the order of its steps: the publish,
    the store update, the log upload or the broadcast, the pause, the queue
    acknowledgment, the cascade.  No call of a step comes before a call of
    an earlier step. *)
Theorem calls_in_handler_order principal body w :
  StronglySorted in_handler_order (trace (update_run svc principal body w)).
Proof.
  destruct (update_run_Run svc principal body w); step_facts.
  all: eapply proj1 with
         (B := Forall (fun e => (0 <= step_rank (step_of e))%nat) _).
  all: repeat first
         [ eapply ordered_block; [eassumption | cbn; lia |]
         | eapply ordered_last; [eassumption | cbn; lia] ].
Qed.

(** The counts of the cascade. *)
Lemma cascade_if_needed_counts principal r w o w1 t :
  cascade_if_needed svc principal r w = (o, w1, t) ->
  (List.length (cascades t) <= 1)%nat /\ (List.length (posts t) <= 1)%nat.
Proof.
  intros [[_ (q & _ & E)] | (_ & _ & ->)]%cascade_if_needed_inv;
    [|cbn; lia].
  pose proof (markParentRunAsFailed_CascadeRun svc
                (cascade_params principal r q) w) as HC.
  rewrite E in HC. cbn [outcome world_of trace fst snd] in HC.
  inversion HC; subst; cbn; lia.
Qed.

(** X2: one request makes each of its calls at most once: one publish, one
    store update, one log-upload request, one broadcast, one pause, one
    queue acknowledgment, one cascade and one outbound post. *)
Theorem each_call_at_most_once principal body w :
  let tr := trace (update_run svc principal body w) in
  (List.length (publishes tr) <= 1)%nat
  /\ (List.length (store_updates tr) <= 1)%nat
  /\ (List.length (uploads tr) + List.length (broadcasts tr) <= 1)%nat
  /\ (List.length (pauses tr) <= 1)%nat
  /\ (List.length (acks tr) <= 1)%nat
  /\ (List.length (cascades tr) <= 1)%nat
  /\ (List.length (posts tr) <= 1)%nat.
Proof.
  intros tr. subst tr.
  destruct (update_run_Run svc principal body w) as
    [ ? ? ? E1 | ? ? ? ? ? ? E1 E2 | ? ? ? ? ? ? ? ? ? E1 E2 E3
    | ? ? ? ? ? ? ? ? ? ? ? ? E1 E2 E3 E4
    | ? ? ? ? ? ? ? ? ? ? ? ? ? ? ? E1 E2 E3 E4 E5
    | ? ? ? ? ? ? ? ? ? ? ? ? ? ? ? ? ? ? E1 E2 E3 E4 E5 E6
    | ? ? ? ? ? ? ? ? ? ? ? ? ? ? ? ? ? ? E1 E2 E3 E4 E5 E6 ];
    step_facts;
    try (pose proof (cascade_if_needed_counts _ _ _ _ _ _ E6) as [Hc Hp];
         unfold cascades, posts in Hc, Hp);
    assert (H1 : (List.length (publishes t1) <= 1)%nat)
      by (apply respond_inv in E1 as [-> | (? & ? & ? & _ & _ & _ & ->)];
          cbn; lia);
    unfold publishes in H1;
    unfold publishes, store_updates, uploads, broadcasts, pauses, acks,
      cascades, posts;
    skip_steps; invert_steps;
    try match goal with
        | H : match ?s with _ => _ end |- _ =>
            destruct s; destruct_and?; subst
        end;
    cbn; repeat split; lia.
Qed.

End Calls.

(** ** Failure and success of one request *)

Section Outcomes.

Context {World : Type} (svc : Services World).

(** X4: when a response is owed and the response waiter rejects the publish,
    the handler throws that error after this one call: the run store is
    not updated and the queue is not acknowledged. *)
Theorem rejected_publish_leaves_run_unpersisted
    principal body w h r payload e w1 :
  FlowRunStatus.includes nonSupportedStatuses (rd_status (runDetails body)) = false ->
  workerHandlerId body = Some h ->
  httpRequestId body = Some r ->
  getFlowResponse (runDetails body) = Ok payload ->
  engineResponseWatcher_publish svc r h payload w = (Err e, w1) ->
  update_run svc principal body w = (Err e, w1, [Publish r h payload (Err e)])
  /\ store_updates (trace (update_run svc principal body w)) = []
  /\ acks (trace (update_run svc principal body w)) = [].
Proof.
  intros Hn Hh Hr Hp He.
  assert (Hx : update_run svc principal body w
               = (Err e, w1, [Publish r h payload (Err e)])).
  { rewrite update_run_steps. unfold update_run_by_steps.
    erewrite bind_Err; [done|].
    rewrite (respond_owed svc body w h r Hn Hh Hr), Hp. by rewrite He. }
  by rewrite Hx.
Qed.

(** X5: when the handler returns, every call it made returned, the run store
    returned the updated run, and exactly one of the log-upload request and
    the progress broadcast was made. *)
Theorem returned_update_run_is_persisted principal body w response :
  let x := update_run svc principal body w in
  outcome x = Ok response ->
  thrown_calls any_call (trace x) = []
  /\ (exists r, persisted (trace x) = Some r)
  /\ store_updates (trace x) = [update_run_params principal body]
  /\ (List.length (uploads (trace x)) + List.length (broadcasts (trace x)) = 1)%nat.
Proof.
  intros x Ho. subst x. split.
  - apply all_returned_thrown_calls, all_returned.
    pose proof (update_run_stops svc principal body w) as Hs.
    by rewrite Ho in Hs.
  - revert Ho.
    destruct (update_run_Run svc principal body w); step_facts; [done..|].
    intros _.
    unfold persisted, store_updates, uploads, broadcasts.
    skip_steps; invert_steps; cbn; eauto.
Qed.

(** X6: the pause is decided by the status of the report: a report that is not
    PAUSED hands no pause metadata to the run store, whatever the status of
    the run that the run store returns. *)
Theorem pause_only_for_paused_report principal body w :
  pauses (trace (update_run svc principal body w)) <> [] ->
  rd_status (runDetails body) = FlowRunStatus.PAUSED.
Proof.
  destruct (update_run_Run svc principal body w); step_facts;
    unfold pauses; skip_steps; invert_steps; cbn; done.
Qed.

(** X7: every queue acknowledgment of [update_run] is made on the ONE_TIME
    queue with the queueToken of the principal as it is: the handler does
    not check that the token is present. *)
Theorem acknowledgment_carries_principal_token principal body w p :
  In p (acks (trace (update_run svc principal body w))) ->
  uj_token p = queueToken principal
  /\ uj_queueName p = QueueName.ONE_TIME.
Proof.
  destruct (update_run_Run svc principal body w); step_facts;
    unfold acks; skip_steps; invert_steps; cbn; try done;
    match goal with
    | H : match ?s with _ => _ end |- _ =>
        destruct s; destruct_and?; subst
    end;
    cbn; intros Hin; repeat (destruct Hin as [<- | Hin]); done.
Qed.

End Outcomes.

(** The waiter is down: a TIMEOUT owed to the caller r1 is not persisted. *)
Lemma rejected_publish_leaves_run_unpersisted_witness :
  store_updates (trace (update_run waiter_down sample_principal
                          (sample_report FlowRunStatus.TIMEOUT (Some "h1") (Some "r1"))
                          tt))
  = [].
Proof.
  refine (proj1 (proj2 (rejected_publish_leaves_run_unpersisted
                          waiter_down sample_principal
                          (sample_report FlowRunStatus.TIMEOUT (Some "h1") (Some "r1"))
                          tt "h1" "r1"
                          {| resp_status := 504;
                             resp_body :=
                               {[ "message" := Js.Str "The request took too long to reply" ]};
                             resp_headers := ∅ |}
                          (Rejected "EPIPE") tt
                          eq_refl eq_refl eq_refl eq_refl eq_refl))).
Defined.

(** A SUCCEEDED report on services that answer: the run is persisted. *)
Lemma returned_update_run_is_persisted_witness :
  exists r,
    persisted (trace (update_run
                        (sample_services stored_alone (Ok parent_on_webhook) (Ok tt))
                        sample_principal
                        (sample_report FlowRunStatus.SUCCEEDED None None) tt))
    = Some r.
Proof.
  exact (proj1 (proj2 (returned_update_run_is_persisted
                         (sample_services stored_alone (Ok parent_on_webhook) (Ok tt))
                         sample_principal
                         (sample_report FlowRunStatus.SUCCEEDED None None) tt
                         {| uploadUrl := None |} eq_refl))).
Defined.

(** The paused report of the handler h2 is the one that pauses. *)
Lemma pause_only_for_paused_report_witness :
  rd_status (runDetails report_paused) = FlowRunStatus.PAUSED.
Proof.
  apply (pause_only_for_paused_report
           (sample_services stored_alone (Ok parent_on_webhook) (Ok tt))
           sample_principal report_paused tt).
  vm_compute. discriminate.
Defined.

(** Without a queue token the run is still acknowledged, with no token. *)
Lemma acknowledgment_carries_principal_token_witness :
  uj_token {| uj_jobId := "run-1"; uj_queueName := QueueName.ONE_TIME;
              uj_status := JobStatus.COMPLETED; uj_token := None;
              uj_message := "Flow succeeded" |}
  = queueToken tokenless_principal.
Proof.
  refine (proj1 (acknowledgment_carries_principal_token
                   (sample_services stored_alone (Ok parent_on_webhook) (Ok tt))
                   tokenless_principal
                   (sample_report FlowRunStatus.SUCCEEDED None None) tt _ _)).
  left. reflexivity.
Defined.

(** ** The notification of the parent run *)

Section Notification.

Context {World : Type} (svc : Services World).

Lemma webhook_requestId_present parent :
  Js.isNil (webhook_requestId parent) = false ->
  webhook_request_of parent (webhook_requestId parent).
Proof.
  unfold webhook_requestId, webhook_request_of.
  destruct (run_pauseMetadata parent) as [pm|] eqn:Hpm; [|done].
  destruct (pm !! "type") as [[| | | |s| |]|] eqn:Ht; cbn; try done.
  destruct (String.eqb s "WEBHOOK") eqn:Es; [|done].
  apply String.eqb_eq in Es as ->.
  destruct (pm !! "requestId") as [v|] eqn:Hr; cbn; [|done].
  intros Hv. by exists pm.
Qed.

(** X8: the cascade posts only to a parent that waits on a webhook: a post
    means that the parent run was loaded, that its pause metadata are of the
    webhook type with a request id, and that the address and the link were
    resolved for that request id and for the child run; it is the only post
    and its outcome is the outcome of the cascade. *)
Theorem post_only_to_parent_on_webhook params w url b out :
  let x := markParentRunAsFailed svc params w in
  In (url, b, out) (posts (trace x)) ->
  exists parent w1 requestId w2 childRunUrl w3,
    flowRunService_getOneOrThrow svc (mp_parentRunId params)
      (mp_projectId params) w = (Ok parent, w1)
    /\ webhook_request_of parent requestId
    /\ domainHelper_getPublicApiUrl svc
         ("/v1/flow-runs/" +:+ mp_parentRunId params +:+ "/requests/"
          +:+ Js.to_string requestId)
         (mp_platformId params) w1 = (Ok url, w2)
    /\ domainHelper_getPublicUrl svc
         ("/projects/" +:+ mp_projectId params +:+ "/runs/"
          +:+ mp_childRunId params)
         (mp_platformId params) w2 = (Ok childRunUrl, w3)
    /\ b = {| cb_status := "error";
              cb_data := {| cb_message := "Subflow execution failed";
                            cb_link := childRunUrl |} |}
    /\ posts (trace x) = [(url, b, out)]
    /\ outcome x = out.
Proof.
  intros x. subst x.
  destruct (markParentRunAsFailed_CascadeRun svc params w)
    as [ | | | | parent w1 callbackUrl w2 childRunUrl w3 out' w4 E1 En E2 E3 E4 ];
    cbn; try tauto.
  intros [[= <- <- <-] | []].
  exists parent, w1, (webhook_requestId parent), w2, childRunUrl, w3.
  split_and!; try done.
  by apply webhook_requestId_present.
Qed.

End Notification.

(** The parent waits on the webhook request req-7: the post goes to the
    address of that request. *)
Lemma post_only_to_parent_on_webhook_witness :
  exists parent requestId,
    webhook_request_of parent requestId
    /\ posts (trace (markParentRunAsFailed
                       (sample_services stored_child (Ok parent_on_webhook) (Ok tt))
                       (cascade_params sample_principal
                          (stored_child (update_run_params sample_principal
                             (sample_report FlowRunStatus.FAILED None None)))
                          "parent-1") tt))
       = [("https://api/v1/flow-runs/parent-1/requests/req-7",
           callback_body "https://app/projects/project-1/runs/run-1",
           Ok tt)].
Proof.
  destruct (post_only_to_parent_on_webhook
              (sample_services stored_child (Ok parent_on_webhook) (Ok tt))
              (cascade_params sample_principal
                 (stored_child (update_run_params sample_principal
                    (sample_report FlowRunStatus.FAILED None None)))
                 "parent-1") tt
              "https://api/v1/flow-runs/parent-1/requests/req-7"
              (callback_body "https://app/projects/project-1/runs/run-1")
              (Ok tt) (or_introl eq_refl))
    as (parent & _ & requestId & _ & _ & _ & _ & Hw & _ & _ & _ & Hp & _).
  exists parent, requestId. split; [exact Hw | exact Hp].
Defined.

(** ** The routes [/update-job] and [/update-flow-response] *)

Section OtherRoutes.

Context {World : Type} (svc : Services World).

(** X9: [/update-job] reaches the queue only outside the testing environment
    and only with a queue token.  In the testing environment it returns
    without a call, token or not; when the environment cannot be read it
    throws that error; without a token it throws before it calls the queue;
    with one it makes one call for the job of the principal, with the
    message of the body or NO_MESSAGE_AVAILABLE, and ends as that call. *)
Theorem update_job_needs_queue_token environment principal body w :
  let x := update_job svc environment principal body w in
  (environment = Ok ApEnvironment.TESTING -> x = (Ok tt, w, []))
  /\ (forall e, environment = Err e -> x = (Err e, w, []))
  /\ (forall env,
        environment = Ok env -> env <> ApEnvironment.TESTING ->
        queueToken principal = None ->
        x = (Err (NullOrUndefined "queueToken"), w, []))
  /\ (forall env token,
        environment = Ok env -> env <> ApEnvironment.TESTING ->
        queueToken principal = Some token ->
        exists p,
          acks (trace x) = [p]
          /\ uj_jobId p = principal_id principal
          /\ uj_queueName p = job_queueName body
          /\ uj_status p = job_status body
          /\ uj_token p = Some token
          /\ uj_message p = match job_message body with
                           | Some m => m
                           | None => "NO_MESSAGE_AVAILABLE"
                           end
          /\ outcome x = fst (flowConsumer_update svc p w)).
Proof.
  intros x. subst x. unfold update_job. split_and!.
  - by intros ->.
  - by intros e ->.
  - intros env -> Henv Ht. unfold bind, lift. cbn. rewrite Ht.
    by destruct env.
  - intros env token -> Henv Ht. unfold bind, lift, await. cbn. rewrite Ht.
    destruct env; try done; cbn;
      destruct (flowConsumer_update _ _ _) as [out w1] eqn:E; cbn;
      eexists; split_and!; try reflexivity; by rewrite E.
Qed.

(** X10: the response of a flow and the report of its run, one after the other.
    For a run reported as RUNNING, SUCCEEDED or PAUSED the caller gets one
    publish, the response of the flow.  For a run reported in a mapped
    status with the identifiers of the same caller, [update_run] publishes
    again under the same key: it keeps no record of the earlier publish. *)
Theorem flow_response_then_update_run principal response body w :
  let x := bind (update_flow_response svc response)
             (fun _ => update_run svc principal body) w in
  (FlowRunStatus.includes
     [FlowRunStatus.RUNNING; FlowRunStatus.SUCCEEDED; FlowRunStatus.PAUSED]
     (rd_status (runDetails body)) = true ->
   publishes (trace x) =
     [(fr_httpRequestId response, fr_workerHandlerId response,
       fr_runResponse response)])
  /\ (forall payload w1,
        FlowRunStatus.includes
          [FlowRunStatus.RUNNING; FlowRunStatus.SUCCEEDED; FlowRunStatus.PAUSED]
          (rd_status (runDetails body)) = false ->
        workerHandlerId body = Some (fr_workerHandlerId response) ->
        httpRequestId body = Some (fr_httpRequestId response) ->
        getFlowResponse (runDetails body) = Ok payload ->
        engineResponseWatcher_publish svc (fr_httpRequestId response)
          (fr_workerHandlerId response) (fr_runResponse response) w = (Ok tt, w1) ->
        publishes (trace x) =
          [(fr_httpRequestId response, fr_workerHandlerId response,
            fr_runResponse response);
           (fr_httpRequestId response, fr_workerHandlerId response, payload)]).
Proof.
  intros x. subst x. unfold update_flow_response. split.
  - intros Hs. unfold bind at 1 2, await, ret.
    destruct (engineResponseWatcher_publish _ _ _ _ _) as [[[]|e] w1]; [|done].
    destruct (update_run svc principal body w1) as [[o w2] t] eqn:E.
    cbn. f_equal.
    change t with (trace (o, w2, t)). rewrite <- E, publishes_update_run.
    by rewrite (respond_not_owed svc body w1 (or_introl Hs)).
  - intros payload w1 Hn Hh Hr Hp Hpub. unfold bind at 1 2, await, ret.
    rewrite Hpub.
    destruct (update_run svc principal body w1) as [[o w2] t] eqn:E.
    cbn. f_equal.
    change t with (trace (o, w2, t)). rewrite <- E, publishes_update_run.
    rewrite (respond_owed svc body w1 _ _ Hn Hh Hr), Hp.
    by destruct (engineResponseWatcher_publish _ _ _ _ _).
Qed.

End OtherRoutes.

(** In production, a principal without a queue token cannot update a job. *)
Lemma update_job_needs_queue_token_witness :
  update_job (sample_services stored_alone (Ok parent_on_webhook) (Ok tt))
    (Ok ApEnvironment.PRODUCTION) tokenless_principal sample_job tt
  = (Err (NullOrUndefined "queueToken"), tt, []).
Proof.
  refine (proj1 (proj2 (proj2 (update_job_needs_queue_token
                                 (sample_services stored_alone
                                    (Ok parent_on_webhook) (Ok tt))
                                 (Ok ApEnvironment.PRODUCTION)
                                 tokenless_principal sample_job tt)))
            ApEnvironment.PRODUCTION eq_refl _ eq_refl).
  discriminate.
Defined.

(** The flow answers the caller r1 and its run is reported as SUCCEEDED:
    the caller gets the answer of the flow, once. *)
Lemma flow_response_then_update_run_witness :
  publishes (trace (bind (update_flow_response
                            (sample_services stored_alone (Ok parent_on_webhook) (Ok tt))
                            sample_flow_response)
                      (fun _ => update_run
                                  (sample_services stored_alone
                                     (Ok parent_on_webhook) (Ok tt))
                                  sample_principal
                                  (sample_report FlowRunStatus.SUCCEEDED
                                     (Some "h1") (Some "r1"))) tt))
  = [("r1", "h1", fr_runResponse sample_flow_response)].
Proof.
  exact (proj1 (flow_response_then_update_run
                  (sample_services stored_alone (Ok parent_on_webhook) (Ok tt))
                  sample_principal sample_flow_response
                  (sample_report FlowRunStatus.SUCCEEDED (Some "h1") (Some "r1")) tt)
           eq_refl).
Defined.
